(** * helm-controller: the HelmRelease reconciler

    A shallow embedding of [internal/controller/helmrelease_controller.go]
    (type [HelmReleaseReconciler] and its methods), of the earlier revision
    of its reconciliation pass, and of the bounded store of the design
    notes, together with the properties of the reconciliation: dependency
    gating, target change handling, failure counter reset, the attempt
    record, terminal access errors, the deferred status patch and the chart
    change request mapper.

    Conventions of the embedding.
    - A Go [error] value is a term of [Error]; a nil error is [None].
    - The object under reconciliation is a pointer in Go; here it is the
      [obj] component of the state that function bodies thread.
    - A statement of a body either continues ([inl]) or returns from the
      function ([inr]), in which case the remaining statements are skipped.
    - Calls that leave the process (events, chart download, Helm actions,
      the status patch, metrics) are recorded, in order, in the [trace]
      component of the state.  Reads through the API client are functions of
      the reconciler record.  Calls to the logger are not modelled.
    - Packages the controller calls and whose code is elsewhere are the
      fields of the record [Packages]: every theorem holds for all of
      them. *)

From Stdlib Require Import ZArith Lia Ascii String.
From stdpp Require Import base option list strings gmap.

Open Scope Z_scope.
Set Warnings "-register-all".

(** ** Errors *)

(** The Go error values the controller distinguishes.  Leaves carry their
    message and a kind; the other constructors are the wrappers whose chain
    [errors.Is] and [errors.As] walk. *)
Inductive ErrKind :=
| KPlain          (* errors.New, fmt.Errorf without a wrapped error *)
| KNotFound       (* apierrors.IsNotFound *)
| KNoCurrent      (* intreconcile.ErrNoCurrent *)
| KAccessDenied.  (* acl.AccessDeniedError *)

Inductive Error :=
| Err (k : ErrKind) (msg : string)
| Wrap (prefix : string) (e : Error)    (* fmt.Errorf(prefix + "%w", e) *)
| Terminal (e : Error)                  (* reconcile.TerminalError(e) *)
| Aggregate (es : list Error).          (* apierrutil.NewAggregate(es) *)

Global Instance ErrKind_eq_dec : EqDecision ErrKind.
Proof. solve_decision. Defined.

Module errors.

(** [errors.Is(err, target)] for a sentinel of kind [k]: the error itself,
    the chain of [Unwrap] of a wrapped or terminal error, and every member
    of an aggregate (whose [Is] method visits its members). *)
Fixpoint Is_kind (k : ErrKind) (e : Error) : bool :=
  match e with
  | Err k' _ => bool_decide (k' = k)
  | Wrap _ e' => Is_kind k e'
  | Terminal e' => Is_kind k e'
  | Aggregate es => existsb (Is_kind k) es
  end.

(** [errors.As(err, &target)] for the error type of kind [k]: the chain of
    [Unwrap] only; an aggregate has no [Unwrap] and no [As]. *)
Fixpoint As_kind (k : ErrKind) (e : Error) : bool :=
  match e with
  | Err k' _ => bool_decide (k' = k)
  | Wrap _ e' => As_kind k e'
  | Terminal e' => As_kind k e'
  | Aggregate _ => false
  end.

(** [errors.Is(err, intreconcile.ErrNoCurrent)]. *)
Definition Is_ErrNoCurrent (e : Error) : bool := Is_kind KNoCurrent e.

(** [errors.Is(err, reconcile.TerminalError(nil))]: a terminal error
    matches any terminal error. *)
Fixpoint Is_TerminalError (e : Error) : bool :=
  match e with
  | Err _ _ => false
  | Wrap _ e' => Is_TerminalError e'
  | Terminal _ => true
  | Aggregate es => existsb Is_TerminalError es
  end.

(** [Aggregate.Error()] joins the distinct messages of its members, first
    occurrence first, and brackets them when there are several. *)
Definition render (ms : list string) : string :=
  match reverse (remove_dups (reverse ms)) with
  | [] => ""
  | [m] => m
  | ms' => "[" +:+ String.concat ", " ms' +:+ "]"
  end.

(** The messages an error contributes to an enclosing aggregate:
    aggregates are flattened, any other error gives its own message. *)
Fixpoint messages (e : Error) : list string :=
  match e with
  | Err _ m => [m]
  | Wrap p e' => [p +:+ render (messages e')]
  | Terminal e' => ["terminal error: " +:+ render (messages e')]
  | Aggregate es => flat_map messages es
  end.

(** [err.Error()]. *)
Definition ErrorString (e : Error) : string := render (messages e).

End errors.

Module apierrors.
(** [apierrors.IsNotFound(err)]. *)
Definition IsNotFound (e : Error) : bool := errors.As_kind KNotFound e.
End apierrors.

Module acl.
(** [acl.IsAccessDenied(err)]. *)
Definition IsAccessDenied (e : Error) : bool := errors.As_kind KAccessDenied e.
End acl.

Module apierrutil.
(** [apierrutil.NewAggregate(errlist)]: nil members are dropped, and an
    empty list gives nil. *)
Definition NewAggregate (es : list (option Error)) : option Error :=
  match omap id es with
  | [] => None
  | es' => Some (Aggregate es')
  end.
End apierrutil.

Module client.
(** [client.IgnoreNotFound(err)]. *)
Definition IgnoreNotFound (e : Error) : option Error :=
  if apierrors.IsNotFound e then None else Some e.
End client.

(** ** Kubernetes and Flux API types *)

(** [time.Duration] (nanoseconds) and [metav1.Time] (zero is Go's zero
    time). *)
Definition Duration := Z.
Definition Time := Z.

(** [types.NamespacedName]. *)
Record NamespacedName := { nnNamespace : string; nnName : string }.

Global Instance NamespacedName_eq_dec : EqDecision NamespacedName.
Proof. solve_decision. Defined.

(** [NamespacedName.String()]. *)
Definition NamespacedName_String (n : NamespacedName) : string :=
  nnNamespace n +:+ "/" +:+ nnName n.

(** [ctrl.Result]. *)
Record Result := { Requeue : bool; RequeueAfter : Duration }.

Definition Result_zero : Result := {| Requeue := false; RequeueAfter := 0 |}.

(** [Result.IsZero()]. *)
Definition Result_IsZero (res : Result) : bool :=
  negb (Requeue res) && (RequeueAfter res =? 0).

(** [metav1.Condition]: the type is the key under which it is stored. *)
Inductive ConditionStatus := ConditionTrue | ConditionFalse | ConditionUnknown.

Record Condition :=
  { condStatus : ConditionStatus; condReason : string; condMessage : string }.

Global Instance ConditionStatus_eq_dec : EqDecision ConditionStatus.
Proof. solve_decision. Defined.

(** Condition types and reasons ([meta], [aclv1], [v2], [eventv1]). *)
Module meta.
Definition ReadyCondition : string := "Ready".
Definition StalledCondition : string := "Stalled".
Definition ReconcilingCondition : string := "Reconciling".
Definition ProgressingReason : string := "Progressing".
End meta.

Module aclv1.
Definition AccessDeniedReason : string := "AccessDenied".
End aclv1.

Module eventv1.
Definition EventSeverityInfo : string := "info".
End eventv1.

Module v2c.
Definition DependencyNotReadyReason : string := "DependencyNotReady".
Definition ArtifactFailedReason : string := "ArtifactFailed".
Definition UninstallFailedReason : string := "UninstallFailed".
Definition HelmReleaseFinalizer : string := "finalizers.fluxcd.io".
End v2c.

(** Chart values, [map[string]interface{}] in Go. *)
Inductive Value :=
| VString (s : string)
| VNumber (z : Z)
| VBool (b : bool)
| VObject (fields : list (string * Value)).

Definition Values := list (string * Value).

(** The part of a loaded [chart.Chart] the controller reads:
    [Metadata.Name] (also [Chart.Name()]) and [Metadata.Version]. *)
Record Chart := { chartName : string; chartVersion : string }.

(** [meta.NamespacedObjectReference], an entry of [spec.dependsOn]. *)
Record NamespacedObjectReference := { refNamespace : string; refName : string }.

(** [meta.SecretKeyReference] inside [spec.kubeConfig]. *)
Record KubeConfig := { SecretRefName : string; SecretRefKey : string }.

(** [v2.ValuesReference]. *)
Record ValuesReference := { vrKind : string; vrName : string; vrValuesKey : string }.

(** [v2.Snapshot], an entry of [status.history]. *)
Record Snapshot :=
  { snapName : string; snapNamespace : string; snapVersion : Z;
    snapChartName : string; snapChartVersion : string; snapConfigDigest : string }.

(** [v2.CrossNamespaceObjectReference], the source of the chart template. *)
Record CrossNamespaceObjectReference :=
  { srKind : string; srNamespace : string; srName : string }.

(** [v2.HelmReleaseSpec], the fields the controller reads itself; the others
    are reached through the accessor methods of the API package. *)
Record HelmReleaseSpec :=
  { Suspend : bool;
    ChartSourceRef : CrossNamespaceObjectReference;
    DependsOn : list NamespacedObjectReference;
    SpecKubeConfig : option KubeConfig;
    ServiceAccountName : string;
    ValuesFrom : list ValuesReference;
    SpecValues : Values;
    TargetNamespace : string;
    ReleaseName : string;
    SpecStorageNamespace : string;
    Interval : Duration }.

(** [v2.HelmReleaseStatus]. *)
Record HelmReleaseStatus :=
  { ObservedGeneration : Z;
    Conditions : gmap string Condition;
    HelmChart : string;
    StorageNamespace : string;
    History : list Snapshot;
    InstallFailures : Z;
    UpgradeFailures : Z;
    Failures : Z;
    LastAttemptedGeneration : Z;
    LastAttemptedRevision : string;
    LastAttemptedConfigDigest : string;
    LastAttemptedValuesChecksum : string }.

(** [v2.HelmRelease] with the object metadata the controller uses. *)
Record HelmRelease :=
  { Namespace : string;
    Name : string;
    Generation : Z;
    DeletionTimestamp : option Time;
    Finalizers : list string;
    Spec : HelmReleaseSpec;
    Status : HelmReleaseStatus }.

(** [sourcev1.Artifact] and [sourcev1.HelmChart]. *)
Record Artifact := { artURL : string; artRevision : string; artDigest : string }.

Record HelmChartObj :=
  { hcNamespace : string;
    hcName : string;
    hcGeneration : Z;
    hcObservedGeneration : Z;
    hcConditions : gmap string Condition;
    hcArtifact : option Artifact;
    hcInterval : Duration }.

(** [client.ObjectKeyFromObject]. *)
Definition ObjectKeyFromObject (o : HelmRelease) : NamespacedName :=
  {| nnNamespace := Namespace o; nnName := Name o |}.

Definition ObjectKeyFromChart (hc : HelmChartObj) : NamespacedName :=
  {| nnNamespace := hcNamespace hc; nnName := hcName hc |}.

(** [metav1.Time.IsZero()] on the optional deletion timestamp. *)
Definition DeletionTimestamp_IsZero (o : HelmRelease) : bool :=
  match DeletionTimestamp o with
  | None => true
  | Some t => t =? 0
  end.

(** *** Field updates *)

Definition set_Status (s : HelmReleaseStatus) (o : HelmRelease) : HelmRelease :=
  {| Namespace := Namespace o; Name := Name o; Generation := Generation o;
     DeletionTimestamp := DeletionTimestamp o; Finalizers := Finalizers o;
     Spec := Spec o; Status := s |}.

Definition set_Finalizers (fs : list string) (o : HelmRelease) : HelmRelease :=
  {| Namespace := Namespace o; Name := Name o; Generation := Generation o;
     DeletionTimestamp := DeletionTimestamp o; Finalizers := fs;
     Spec := Spec o; Status := Status o |}.

Definition set_Conditions (cs : gmap string Condition) (s : HelmReleaseStatus)
  : HelmReleaseStatus :=
  {| ObservedGeneration := ObservedGeneration s; Conditions := cs;
     HelmChart := HelmChart s; StorageNamespace := StorageNamespace s;
     History := History s; InstallFailures := InstallFailures s;
     UpgradeFailures := UpgradeFailures s; Failures := Failures s;
     LastAttemptedGeneration := LastAttemptedGeneration s;
     LastAttemptedRevision := LastAttemptedRevision s;
     LastAttemptedConfigDigest := LastAttemptedConfigDigest s;
     LastAttemptedValuesChecksum := LastAttemptedValuesChecksum s |}.

Definition set_StorageNamespace (ns : string) (s : HelmReleaseStatus)
  : HelmReleaseStatus :=
  {| ObservedGeneration := ObservedGeneration s; Conditions := Conditions s;
     HelmChart := HelmChart s; StorageNamespace := ns;
     History := History s; InstallFailures := InstallFailures s;
     UpgradeFailures := UpgradeFailures s; Failures := Failures s;
     LastAttemptedGeneration := LastAttemptedGeneration s;
     LastAttemptedRevision := LastAttemptedRevision s;
     LastAttemptedConfigDigest := LastAttemptedConfigDigest s;
     LastAttemptedValuesChecksum := LastAttemptedValuesChecksum s |}.

Definition set_History (h : list Snapshot) (s : HelmReleaseStatus)
  : HelmReleaseStatus :=
  {| ObservedGeneration := ObservedGeneration s; Conditions := Conditions s;
     HelmChart := HelmChart s; StorageNamespace := StorageNamespace s;
     History := h; InstallFailures := InstallFailures s;
     UpgradeFailures := UpgradeFailures s; Failures := Failures s;
     LastAttemptedGeneration := LastAttemptedGeneration s;
     LastAttemptedRevision := LastAttemptedRevision s;
     LastAttemptedConfigDigest := LastAttemptedConfigDigest s;
     LastAttemptedValuesChecksum := LastAttemptedValuesChecksum s |}.

(** The three failure counters, assigned together. *)
Definition set_FailureCounts (i u f : Z) (s : HelmReleaseStatus)
  : HelmReleaseStatus :=
  {| ObservedGeneration := ObservedGeneration s; Conditions := Conditions s;
     HelmChart := HelmChart s; StorageNamespace := StorageNamespace s;
     History := History s; InstallFailures := i;
     UpgradeFailures := u; Failures := f;
     LastAttemptedGeneration := LastAttemptedGeneration s;
     LastAttemptedRevision := LastAttemptedRevision s;
     LastAttemptedConfigDigest := LastAttemptedConfigDigest s;
     LastAttemptedValuesChecksum := LastAttemptedValuesChecksum s |}.

(** The four last-attempt fields, assigned together. *)
Definition set_LastAttempted (gen : Z) (rev dig sum : string)
  (s : HelmReleaseStatus) : HelmReleaseStatus :=
  {| ObservedGeneration := ObservedGeneration s; Conditions := Conditions s;
     HelmChart := HelmChart s; StorageNamespace := StorageNamespace s;
     History := History s; InstallFailures := InstallFailures s;
     UpgradeFailures := UpgradeFailures s; Failures := Failures s;
     LastAttemptedGeneration := gen;
     LastAttemptedRevision := rev;
     LastAttemptedConfigDigest := dig;
     LastAttemptedValuesChecksum := sum |}.

Definition upd_Status (f : HelmReleaseStatus -> HelmReleaseStatus)
  (o : HelmRelease) : HelmRelease :=
  set_Status (f (Status o)) o.

(** ** Condition helpers ([fluxcd/pkg/runtime/conditions]) *)

Module conditions.

Definition TrueCondition (reason msg : string) : Condition :=
  {| condStatus := ConditionTrue; condReason := reason; condMessage := msg |}.

Definition FalseCondition (reason msg : string) : Condition :=
  {| condStatus := ConditionFalse; condReason := reason; condMessage := msg |}.

(** [conditions.IsTrue] on a condition list. *)
Definition is_true (cs : gmap string Condition) (t : string) : bool :=
  match cs !! t with
  | Some c => bool_decide (condStatus c = ConditionTrue)
  | None => false
  end.

Definition IsTrue (o : HelmRelease) (t : string) : bool :=
  is_true (Conditions (Status o)) t.

(** [conditions.IsReady] of a HelmChart. *)
Definition IsReady (hc : HelmChartObj) : bool :=
  is_true (hcConditions hc) meta.ReadyCondition.

(** [conditions.Set] and [conditions.Delete]. *)
Definition Set_ (t : string) (c : Condition) (o : HelmRelease) : HelmRelease :=
  upd_Status (fun s => set_Conditions (<[t := c]> (Conditions s)) s) o.

Definition Delete (t : string) (o : HelmRelease) : HelmRelease :=
  upd_Status (fun s => set_Conditions (delete t (Conditions s)) s) o.

Definition MarkTrue (t reason msg : string) : HelmRelease -> HelmRelease :=
  Set_ t (TrueCondition reason msg).

Definition MarkFalse (t reason msg : string) : HelmRelease -> HelmRelease :=
  Set_ t (FalseCondition reason msg).

(** [MarkReconciling] removes Stalled and sets Reconciling to true. *)
Definition MarkReconciling (reason msg : string) (o : HelmRelease) : HelmRelease :=
  MarkTrue meta.ReconcilingCondition reason msg (Delete meta.StalledCondition o).

(** [MarkStalled] removes Reconciling and sets Stalled to true. *)
Definition MarkStalled (reason msg : string) (o : HelmRelease) : HelmRelease :=
  MarkTrue meta.StalledCondition reason msg (Delete meta.ReconcilingCondition o).

End conditions.

Module controllerutil.

Definition ContainsFinalizer (o : HelmRelease) (f : string) : bool :=
  bool_decide (f ∈ Finalizers o).

Definition AddFinalizer (f : string) (o : HelmRelease) : HelmRelease :=
  if ContainsFinalizer o f then o else set_Finalizers (Finalizers o ++ [f]) o.

Definition RemoveFinalizer (f : string) (o : HelmRelease) : HelmRelease :=
  set_Finalizers (List.filter (fun g => negb (String.eqb g f)) (Finalizers o)) o.

End controllerutil.

(** ** Collaborators of the reconciler *)

(** [rest.Config], as far as the controller looks into it. *)
Record RestConfig := { Host : string; ImpersonateUserName : string }.

(** The options [buildRESTClientGetter] passes to the [kube] package and
    the configuration the getter is built from. *)
Record Getter :=
  { gConfig : RestConfig;
    gNamespace : string;              (* kube.WithNamespace *)
    gImpersonateName : string;        (* kube.WithImpersonate *)
    gImpersonateNamespace : string;
    gPersistent : bool }.             (* kube.WithPersistent *)

(** [action.ConfigFactory]: the getter and the storage it was built with. *)
Record ConfigFactory :=
  { cfGetter : Getter; cfStorageDriver : string; cfStorageNamespace : string }.

(** [corev1.Secret] data. *)
Definition Secret := list (string * string).

(** Options given to the patch helper. *)
Inductive PatchOption :=
| WithFieldOwner (manager : string)
| WithOwnedConditions
| WithStatusObservedGeneration.

Global Instance PatchOption_eq_dec : EqDecision PatchOption.
Proof. solve_decision. Defined.

(** Calls that leave the process, in the order they are made. *)
Inductive Event :=
| EvEventf (severity reason msg : string)            (* r.Eventf *)
| EvLoadChart (url digest : string)                  (* loader.SecureLoadChartFromURL *)
| EvChartTemplate (o : HelmRelease)                  (* HelmChartTemplate.Reconcile *)
| EvUninstall (cfg : ConfigFactory) (o : HelmRelease)    (* Uninstall.Reconcile *)
| EvAtomicRelease (cfg : ConfigFactory) (o : HelmRelease) (c : Chart) (v : Values)
                                                     (* AtomicRelease.Reconcile *)
| EvPatch (o : HelmRelease) (opts : list PatchOption)    (* patchHelper.Patch *)
| EvRecordSuspend (suspended : bool)                 (* r.RecordSuspend *)
| EvRecordReadiness (o : HelmRelease)                (* r.Metrics.RecordReadiness *)
| EvRecordDuration (o : HelmRelease).                (* r.Metrics.RecordDuration *)

(** Events that run a Helm action against the cluster. *)
Definition is_uninstall (e : Event) : bool :=
  match e with EvUninstall _ _ => true | _ => false end.

Definition is_install_or_upgrade (e : Event) : bool :=
  match e with EvAtomicRelease _ _ _ _ => true | _ => false end.

Definition is_chart_load (e : Event) : bool :=
  match e with EvLoadChart _ _ => true | _ => false end.

(** The reconciler: the API client it embeds, seen through the reads the
    controller makes, and its configuration fields.  A read either fails
    with an error or yields the object. *)
Record HelmReleaseReconciler :=
  { Get : NamespacedName -> Error + HelmRelease;
    GetHelmChartObj : NamespacedName -> Error + HelmChartObj;
    GetSecret : NamespacedName -> Error + Secret;
    GetServiceAccount : NamespacedName -> option Error;
    (* r.List with client.MatchingFields{v2.SourceIndexKey: key} *)
    ListBySource : string -> Error + list HelmRelease;
    GetClusterConfig : Error + RestConfig;
    FieldManager : string;
    requeueDependency : Duration }.

(** The packages the controller calls and whose code is outside the files
    verified here; they are taken as parameters.  A collaborator that
    receives the object pointer may update the object, so it returns the
    object together with its error. *)
Record Packages :=
  { (* api/v2beta2 accessor methods *)
    GetValues : HelmRelease -> Values;
    GetStorageNamespace : HelmRelease -> string;
    GetReleaseNamespace : HelmRelease -> string;
    GetRequeueAfter : HelmRelease -> Duration;
    UsePersistentClient : HelmRelease -> bool;
    StatusGetHelmChart : HelmReleaseStatus -> string * string;
    (* source-controller API *)
    ChartGetRequeueAfter : HelmChartObj -> Duration;
    TransformLegacyRevision : string -> string;
    (* internal/acl *)
    AllowsAccessTo : HelmRelease -> string -> NamespacedName -> option Error;
    (* internal/chartutil *)
    ChartValuesFromReferences :
      string -> Values -> list ValuesReference -> Error + Values;
    DigestValues : Values -> string;
    (* internal/loader *)
    SecureLoadChartFromURL : string -> string -> Error + Chart;
    (* internal/kube *)
    ConfigFromSecret : Secret -> string -> Error + RestConfig;
    ToRESTConfig : Getter -> Error + RestConfig;
    (* internal/action; the factory is given the storage driver and the
       storage namespace of action.WithStorage *)
    DefaultStorageDriver : string;
    NewConfigFactory : Getter -> string -> string -> Error + ConfigFactory;
    ReleaseTargetChanged : HelmRelease -> string -> bool;
    MustResetFailures : HelmRelease -> Chart -> Values -> bool;
    (* internal/reconcile *)
    HelmChartTemplate_Reconcile : HelmRelease -> HelmRelease * option Error;
    Uninstall_Reconcile : ConfigFactory -> HelmRelease -> HelmRelease * option Error;
    AtomicRelease_Reconcile :
      ConfigFactory -> HelmRelease -> Chart -> Values -> HelmRelease * option Error;
    (* fluxcd/pkg/runtime/patch *)
    Patch : HelmRelease -> list PatchOption -> HelmRelease * option Error;
    (* fmt.Sprintf(format) without operands, as the condition and event
       helpers apply it to a message passed in the place of the format *)
    Sprintf0 : string -> string }.

Module sourcev1.
Definition HelmChartKind : string := "HelmChart".
End sourcev1.

(** [Artifact.HasRevision]: equality of the revisions once both are brought
    to the current revision format. *)
Definition HasRevision (P : Packages) (a : Artifact) (revision : string) : bool :=
  String.eqb (TransformLegacyRevision P (artRevision a))
             (TransformLegacyRevision P revision).

(** Modelled from the spec: what [action.MustResetFailures] of
    internal/action returns.  The controller calls it and its code is not
    among the verified files.  The spec gives it as
    [(revision <> lastAttemptedRevision) OR (digest <> lastAttemptedConfigDigest)],
    the digest being the canonical digest of the composed values. *)
Definition MustResetFailures_spec (P : Packages) (o : HelmRelease) (c : Chart)
  (values : Values) : bool :=
  negb (String.eqb (chartVersion c) (LastAttemptedRevision (Status o)))
  || negb (String.eqb (DigestValues P values) (LastAttemptedConfigDigest (Status o))).

(** ** The monad of function bodies *)

(** The state a function body works on: the object behind the pointer and
    the calls made so far. *)
Record State := { obj : HelmRelease; trace : list Event }.

(** A completed call returns its result and the state it leaves. *)
Definition Fn (R : Type) : Type := State -> R * State.

(** A statement of a body whose function returns [R]: it either continues
    with a value ([inl]) or returns from the function ([inr]). *)
Definition M (R A : Type) : Type := State -> (A + R) * State.

Definition ret {R A} (a : A) : M R A := fun st => (inl a, st).

Definition bind {R A B} (m : M R A) (k : A -> M R B) : M R B :=
  fun st =>
    match m st with
    | (inl a, st') => k a st'
    | (inr r, st') => (inr r, st')
    end.

(** Go's [return r]. *)
Definition return_ {R A} (r : R) : M R A := fun st => (inr r, st).

(** The current value of [*obj], and an assignment through the pointer. *)
Definition load {R} : M R HelmRelease := fun st => (inl (obj st), st).

Definition modify {R} (f : HelmRelease -> HelmRelease) : M R unit :=
  fun st => (inl tt, {| obj := f (obj st); trace := trace st |}).

Definition emit {R} (e : Event) : M R unit :=
  fun st => (inl tt, {| obj := obj st; trace := trace st ++ [e] |}).

(** A function body run to completion, and a call of a function from
    within another body. *)
Definition fn {R} (body : M R R) : Fn R :=
  fun st =>
    match body st with
    | (inl r, st') => (r, st')
    | (inr r, st') => (r, st')
    end.

Definition call {R R'} (f : Fn R') : M R R' :=
  fun st => let (r, st') := f st in (inl r, st').

(** A collaborator that receives the object pointer. *)
Definition through {R} (f : HelmRelease -> HelmRelease * option Error)
  : M R (option Error) :=
  fun st =>
    let (o', err) := f (obj st) in
    (inl err, {| obj := o'; trace := trace st |}).

Declare Scope go_scope.
Delimit Scope go_scope with go.
Notation "x ← y ; z" := (bind y (fun x => z))
  (at level 20, y at level 100, z at level 200, only parsing) : go_scope.
Notation "x ;; z" := (bind x (fun _ => z))
  (at level 100, z at level 200, only parsing, right associativity) : go_scope.

Local Open Scope go_scope.

(** [serviceAccount[strings.LastIndex(serviceAccount, ":")+1:]], when the
    string has a colon. *)
Fixpoint after_last_colon (s : string) : option string :=
  match s with
  | EmptyString => None
  | String c s' =>
      match after_last_colon s' with
      | Some t => Some t
      | None => if Ascii.eqb c ":"%char then Some s' else None
      end
  end.

(** The [client.Object] handed to the map function of a watch. *)
Inductive ClientObject :=
| HelmChartObject (hc : HelmChartObj)
| HelmReleaseObject (o : HelmRelease)
| OtherObject (kind : string).

(** ** The controller *)

Section Controller.

Variable P : Packages.
Variable r : HelmReleaseReconciler.

(** *** checkDependencies *)

(** The reference of one dependency: an empty namespace is replaced by
    the namespace of the release. *)
Definition dependencyRef (o : HelmRelease) (d : NamespacedObjectReference)
  : NamespacedName :=
  {| nnNamespace := if String.eqb (refNamespace d) "" then Namespace o
                    else refNamespace d;
     nnName := refName d |}.

(** One iteration of the loop: [None] when the loop goes on. *)
Definition checkDependency (o : HelmRelease) (d : NamespacedObjectReference)
  : option Error :=
  let ref := dependencyRef o d in
  match Get r ref with
  | inl err =>
      Some (Wrap ("unable to get '" +:+ NamespacedName_String ref
                    +:+ "' dependency: ") err)
  | inr dHr =>
      if negb (Generation dHr =? ObservedGeneration (Status dHr))
         || negb (conditions.IsTrue dHr meta.ReadyCondition)
      then Some (Err KPlain ("dependency '" +:+ NamespacedName_String ref
                               +:+ "' is not ready"))
      else None
  end.

Fixpoint checkDependencies_from (o : HelmRelease)
  (ds : list NamespacedObjectReference) : option Error :=
  match ds with
  | [] => None
  | d :: ds' =>
      match checkDependency o d with
      | Some err => Some err
      | None => checkDependencies_from o ds'
      end
  end.

Definition checkDependencies (o : HelmRelease) : option Error :=
  checkDependencies_from o (DependsOn (Spec o)).

(** *** getHelmChart *)

Definition getHelmChart (o : HelmRelease) : Error + HelmChartObj :=
  let (namespace, name) := StatusGetHelmChart P (Status o) in
  let chartRef := {| nnNamespace := namespace; nnName := name |} in
  match AllowsAccessTo P o sourcev1.HelmChartKind chartRef with
  | Some err => inl err
  | None =>
      match GetHelmChartObj r chartRef with
      | inl err => inl err
      | inr hc => inr hc
      end
  end.

(** *** buildRESTClientGetter *)

Definition NewMemoryRESTClientGetter (cfg : RestConfig) (o : HelmRelease) : Getter :=
  {| gConfig := cfg;
     gNamespace := GetReleaseNamespace P o;
     gImpersonateName := ServiceAccountName (Spec o);
     gImpersonateNamespace := Namespace o;
     gPersistent := UsePersistentClient P o |}.

Definition buildRESTClientGetter (o : HelmRelease) : Error + Getter :=
  match SpecKubeConfig (Spec o) with
  | Some kc =>
      let secretName :=
        {| nnNamespace := Namespace o; nnName := SecretRefName kc |} in
      match GetSecret r secretName with
      | inl err =>
          inl (Wrap ("could not get KubeConfig secret '"
                       +:+ NamespacedName_String secretName +:+ "': ") err)
      | inr secret =>
          match ConfigFromSecret P secret (SecretRefKey kc) with
          | inl err => inl err
          | inr kubeConfig => inr (NewMemoryRESTClientGetter kubeConfig o)
          end
      end
  | None =>
      match GetClusterConfig r with
      | inl err => inl (Wrap "could not get in-cluster REST config: " err)
      | inr cfg => inr (NewMemoryRESTClientGetter cfg o)
      end
  end.

(** *** reconcileUninstall *)

Definition reconcileUninstall (getter : Getter) : Fn (option Error) := fn (
  o ← load;
  match NewConfigFactory P getter (DefaultStorageDriver P)
          (StorageNamespace (Status o)) with
  | inl err =>
      modify (conditions.MarkFalse meta.ReadyCondition "ConfigFactoryErr"
                (Sprintf0 P (errors.ErrorString err)));;
      return_ (Some err)
  | inr cfg =>
      (* Run uninstall. *)
      emit (EvUninstall cfg o);;
      through (Uninstall_Reconcile P cfg)
  end).

(** *** reconcileChartTemplate *)

Definition reconcileChartTemplate : Fn (option Error) := fn (
  o ← load;
  emit (EvChartTemplate o);;
  through (HelmChartTemplate_Reconcile P)).

(** *** reconcileRelease *)

Definition reconcileRelease : Fn (Result * option Error) := fn (
  (* Mark the resource as under reconciliation. *)
  modify (conditions.MarkReconciling meta.ProgressingReason "");;

  (* Confirm dependencies are Ready before proceeding. *)
  o ← load;
  (if (0 <? Z.of_nat (length (DependsOn (Spec o))))
   then
     match checkDependencies o with
     | Some err =>
         modify (conditions.MarkFalse meta.ReadyCondition
                   v2c.DependencyNotReadyReason
                   (Sprintf0 P (errors.ErrorString err)));;
         emit (EvEventf eventv1.EventSeverityInfo v2c.DependencyNotReadyReason
                 (Sprintf0 P (errors.ErrorString err)));;
         (* Exponential backoff would cause execution to be prolonged too
            much, instead we requeue on a fixed interval. *)
         return_ ({| Requeue := false; RequeueAfter := requeueDependency r |},
                  None)
     | None => ret tt
     end
   else ret tt);;

  (* Get the HelmChart object for the release. *)
  o ← load;
  hc ← match getHelmChart o with
       | inl err =>
           if acl.IsAccessDenied err
           then
             modify (conditions.MarkStalled aclv1.AccessDeniedReason
                       (Sprintf0 P (errors.ErrorString err)));;
             modify (conditions.MarkFalse meta.ReadyCondition
                       aclv1.AccessDeniedReason
                       (Sprintf0 P (errors.ErrorString err)));;
             modify (conditions.Delete meta.ReconcilingCondition);;
             (* Recovering from this is not possible without a restart of
                the controller or a change of spec. *)
             return_ (Result_zero, Some (Terminal err))
           else
             modify (conditions.MarkFalse meta.ReadyCondition
                       v2c.ArtifactFailedReason
                       (Sprintf0 P ("could not get HelmChart object: "
                                      +:+ errors.ErrorString err)));;
             return_ (Result_zero, Some err)
       | inr hc => ret hc
       end;

  (* Check chart readiness: the generation is observed, the chart is
     Ready and it has an artifact. *)
  art ← (let notReady : M (Result * option Error) Artifact :=
           modify (conditions.MarkFalse meta.ReadyCondition "HelmChartNotReady"
                     (Sprintf0 P ("HelmChart '" +:+ hcNamespace hc +:+ "/"
                                    +:+ hcName hc +:+ "' is not ready")));;
           (* Do not requeue immediately, when the artifact is created
              the watcher should trigger a reconciliation. *)
           return_ ({| Requeue := false;
                       RequeueAfter := ChartGetRequeueAfter P hc |}, None) in
         if negb (hcGeneration hc =? hcObservedGeneration hc)
            || negb (conditions.IsReady hc)
         then notReady
         else match hcArtifact hc with
              | None => notReady
              | Some art => ret art
              end);

  (* Compose values based from the spec and references. *)
  o ← load;
  values ← match ChartValuesFromReferences P (Namespace o) (GetValues P o)
                   (ValuesFrom (Spec o)) with
           | inl err =>
               modify (conditions.MarkFalse meta.ReadyCondition "ValuesError"
                         (Sprintf0 P (errors.ErrorString err)));;
               return_ (Result_zero, Some err)
           | inr values => ret values
           end;

  (* Load chart from artifact. *)
  emit (EvLoadChart (artURL art) (artDigest art));;
  loadedChart ← match SecureLoadChartFromURL P (artURL art) (artDigest art) with
                | inl err =>
                    modify (conditions.MarkFalse meta.ReadyCondition
                              v2c.ArtifactFailedReason
                              (Sprintf0 P (errors.ErrorString err)));;
                    return_ (Result_zero, Some err)
                | inr c => ret c
                end;

  (* Build the REST client getter. *)
  o ← load;
  getter ← match buildRESTClientGetter o with
           | inl err =>
               modify (conditions.MarkFalse meta.ReadyCondition "RESTClientError"
                         (Sprintf0 P (errors.ErrorString err)));;
               return_ (Result_zero, Some err)
           | inr g => ret g
           end;

  (* If the release target configuration has changed, we need to uninstall
     the previous release target first. *)
  o ← load;
  (if ReleaseTargetChanged P o (chartName loadedChart)
   then
     err ← call (reconcileUninstall getter);
     match err with
     | Some e =>
         if negb (errors.Is_ErrNoCurrent e)
         then return_ (Result_zero, Some e)
         else ret tt
     | None => ret tt
     end;;
     modify (upd_Status (set_History []));;
     modify (upd_Status (set_StorageNamespace ""));;
     return_ ({| Requeue := true; RequeueAfter := 0 |}, None)
   else ret tt);;

  (* Set current storage namespace. *)
  modify (fun o => upd_Status (set_StorageNamespace (GetStorageNamespace P o)) o);;

  (* Reset the failure count if the chart or values have changed. *)
  o ← load;
  (if MustResetFailures P o loadedChart values
   then modify (upd_Status (set_FailureCounts 0 0 0))
   else ret tt);;

  (* Set last attempt values. *)
  modify (fun o =>
    upd_Status (set_LastAttempted (Generation o) (chartVersion loadedChart)
                  (DigestValues P values) "") o);;

  (* Construct config factory for any further Helm actions. *)
  o ← load;
  cfg ← match NewConfigFactory P getter (DefaultStorageDriver P)
                (StorageNamespace (Status o)) with
        | inl err =>
            modify (conditions.MarkFalse meta.ReadyCondition "FactoryError"
                      (Sprintf0 P (errors.ErrorString err)));;
            return_ (Result_zero, Some err)
        | inr cfg => ret cfg
        end;

  (* Off we go! *)
  o ← load;
  emit (EvAtomicRelease cfg o loadedChart values);;
  err ← through (fun o => AtomicRelease_Reconcile P cfg o loadedChart values);
  match err with
  | Some e => return_ (Result_zero, Some e)
  | None => ret tt
  end;;
  o ← load;
  return_ ({| Requeue := false; RequeueAfter := GetRequeueAfter P o |}, None)).

(** *** reconcileReleaseDeletion *)

Definition reconcileReleaseDeletion : Fn (option Error) := fn (
  (* If the release is not marked for deletion, we should not attempt to
     uninstall it. *)
  o ← load;
  (if DeletionTimestamp_IsZero o
   then return_ (Some (Err KPlain
          "refusing to uninstall Helm release: deletion timestamp is not set"))
   else ret tt);;

  (* If the release has not been installed yet, we can skip the
     uninstallation. *)
  (if String.eqb (StorageNamespace (Status o)) ""
   then return_ None else ret tt);;

  (* Build client getter. *)
  getter ← match buildRESTClientGetter o with
           | inl err =>
               if apierrors.IsNotFound err
               then return_ None
               else
                 modify (conditions.MarkFalse meta.ReadyCondition
                           v2c.UninstallFailedReason
                           ("failed to build REST client getter to uninstall release: "
                              +:+ errors.ErrorString err));;
                 return_ (Some err)
           | inr g => ret g
           end;

  (* Confirm any ServiceAccount used for impersonation exists before
     attempting to uninstall. *)
  match SpecKubeConfig (Spec o) with
  | Some _ => ret tt
  | None =>
      cfg ← match ToRESTConfig P getter with
            | inl err => return_ (Some err)
            | inr cfg => ret cfg
            end;
      if negb (String.eqb (ImpersonateUserName cfg) "")
      then
        let serviceAccount :=
          match after_last_colon (ImpersonateUserName cfg) with
          | Some sa => sa
          | None => ImpersonateUserName cfg
          end in
        match GetServiceAccount r
                {| nnNamespace := Namespace o; nnName := serviceAccount |} with
        | Some err =>
            match client.IgnoreNotFound err with
            | None => return_ None
            | Some _ =>
                modify (conditions.MarkFalse meta.ReadyCondition
                          v2c.UninstallFailedReason
                          ("failed to confirm ServiceAccount '" +:+ serviceAccount
                             +:+ "' can be used to uninstall release: "
                             +:+ errors.ErrorString err));;
                return_ (Some err)
            end
        | None => ret tt
        end
      else ret tt
  end;;

  (* Attempt to uninstall the release. *)
  err ← call (reconcileUninstall getter);
  match err with
  | Some e =>
      if negb (errors.Is_ErrNoCurrent e) then return_ (Some e) else ret tt
  | None => ret tt
  end;;

  (* Truncate the current release details in the status. *)
  modify (upd_Status (set_History []));;
  modify (upd_Status (set_StorageNamespace ""));;
  return_ None).

(** *** reconcileDelete *)

Definition reconcileDelete : Fn (Result * option Error) := fn (
  (* Only uninstall the release and delete the HelmChart resource if the
     resource is not suspended. *)
  o ← load;
  (if negb (Suspend (Spec o))
   then
     err ← call reconcileReleaseDeletion;
     match err with
     | Some e => return_ (Result_zero, Some e)
     | None => ret tt
     end;;
     err ← call reconcileChartTemplate;
     match err with
     | Some e => return_ (Result_zero, Some e)
     | None => ret tt
     end
   else ret tt);;

  o ← load;
  (if negb (DeletionTimestamp_IsZero o)
   then
     (* Remove our finalizer from the list. *)
     modify (controllerutil.RemoveFinalizer v2c.HelmReleaseFinalizer);;
     (* Stop reconciliation as the object is being deleted. *)
     return_ (Result_zero, None)
   else ret tt);;

  return_ ({| Requeue := true; RequeueAfter := 0 |}, None)).

(** *** Reconcile *)

(** The statements of [Reconcile] that follow the registration of the
    deferred function. *)
Definition Reconcile_body : Fn (Result * option Error) := fn (
  (* Examine if the object is under deletion. *)
  o ← load;
  (if negb (DeletionTimestamp_IsZero o)
   then out ← call reconcileDelete; return_ out
   else ret tt);;

  (* Add finalizer first if not exist to avoid the race condition between
     init and delete. *)
  (if negb (controllerutil.ContainsFinalizer o v2c.HelmReleaseFinalizer)
   then
     modify (controllerutil.AddFinalizer v2c.HelmReleaseFinalizer);;
     return_ ({| Requeue := true; RequeueAfter := 0 |}, None)
   else ret tt);;

  (* Return early if the object is suspended. *)
  (if Suspend (Spec o)
   then return_ (Result_zero, None)
   else ret tt);;

  (* Reconcile the HelmChart template. *)
  err ← call reconcileChartTemplate;
  match err with
  | Some e => return_ (Result_zero, Some e)
  | None => ret tt
  end;;

  out ← call reconcileRelease;
  return_ out).

(** The options the deferred function gives to the patch helper. *)
Definition patchOpts (result : Result) (retErr : option Error) : list PatchOption :=
  [WithFieldOwner (FieldManager r); WithOwnedConditions]
  ++ (if match retErr with
         | Some e => errors.Is_TerminalError e
         | None => Result_IsZero result || negb (Requeue result)
         end
      then [WithStatusObservedGeneration] else []).

(** The deferred function: it always attempts to patch the object, may
    replace the named result [retErr], and records the metrics. *)
Definition Reconcile_deferred (result : Result) (retErr : option Error)
  : Fn (Result * option Error) := fn (
  o ← load;
  emit (EvPatch o (patchOpts result retErr));;
  perr ← through (fun o => Patch P o (patchOpts result retErr));
  let retErr' :=
    match perr with
    | Some err =>
        match retErr with
        | Some e => apierrutil.NewAggregate [Some e; Some err]
        | None => Some err
        end
    | None => retErr
    end in
  (* Always record readiness and duration metrics. *)
  o ← load;
  emit (EvRecordReadiness o);;
  emit (EvRecordDuration o);;
  return_ (result, retErr')).

(** [Reconcile]: the result, and the state it leaves when the object was
    found. *)
Definition Reconcile (req : NamespacedName)
  : (Result * option Error) * option State :=
  (* Fetch the HelmRelease *)
  match Get r req with
  | inl err => ((Result_zero, client.IgnoreNotFound err), None)
  | inr o =>
      (* Record suspended status metric. *)
      let st0 := {| obj := o; trace := [EvRecordSuspend (Suspend (Spec o))] |} in
      let '((result, retErr), st1) := Reconcile_body st0 in
      let (out, st2) := Reconcile_deferred result retErr st1 in
      (out, Some st2)
  end.

(** *** requestsForHelmChartChange *)

Fixpoint requests_from (a : Artifact) (items : list HelmRelease)
  : list NamespacedName :=
  match items with
  | [] => []
  | i :: items' =>
      (* If the revision of the artifact equals to the last attempted
         revision, we should not make a request for this HelmRelease *)
      if HasRevision P a (LastAttemptedRevision (Status i))
      then requests_from a items'
      else ObjectKeyFromObject i :: requests_from a items'
  end.

Definition requestsForHelmChartChange (o : ClientObject) : list NamespacedName :=
  match o with
  | HelmChartObject hc =>
      (* If we do not have an artifact, we have no requests to make *)
      match hcArtifact hc with
      | None => []
      | Some a =>
          match ListBySource r (NamespacedName_String (ObjectKeyFromChart hc)) with
          | inl _ => []
          | inr items => requests_from a items
          end
      end
  | _ => []
  end.

End Controller.

(** ** The bounded history store *)

(** Modelled from the spec: the append-with-eviction store of section 4.6
    (capacity N; eviction removes the oldest entry once capacity is
    exceeded).  Its implementation is not among the verified files; the
    tests of the log buffer of internal/action ([TestLogBuffer_Log],
    [TestLogBuffer_Len]) exercise such a store.  Entries are kept oldest
    first. *)
Module HistoryStore.

Section Store.

Context {A : Type}.

Record t := { capacity : nat; entries : list A }.

Definition empty (n : nat) : t := {| capacity := n; entries := [] |}.

(** Append, then evict the oldest entry if the capacity is exceeded. *)
Definition insert (s : t) (x : A) : t :=
  let es := entries s ++ [x] in
  {| capacity := capacity s;
     entries := if (capacity s <? length es)%nat then tail es else es |}.

Definition insert_all (s : t) (xs : list A) : t := fold_left insert xs s.

Definition len (s : t) : nat := length (entries s).

End Store.

Arguments t : clear implicits.

End HistoryStore.

(** ** The earlier revision of the controller *)

(** The file src/unnamed/part_000 holds an earlier revision of the same
    controller.  Its [reconcileRelease] and the functions it calls are
    embedded here, where they differ from the current ones; the deferred
    patch of [Reconcile], its suspend check and [requestsForHelmChartChange]
    are the same statements in both revisions.  In that revision the status
    has a pointer to the current release in the place of the history, and
    reading through that pointer when it is nil ends the pass in a panic. *)
Module Legacy.

(** How a call ends. *)
Inductive Outcome :=
| Returns (result : Result) (err : option Error)
| Panics.

Section Controller.

Variable P : Packages.
Variable r : HelmReleaseReconciler.

(** The field [NoCrossNamespaceRef] of the reconciler, the pointer
    [Status.Current] with the assignment of nil to it, and the getter
    constructor of the kube package of that revision. *)
Variable NoCrossNamespaceRef : bool.
Variable Current : HelmReleaseStatus -> option Snapshot.
Variable clear_Current : HelmReleaseStatus -> HelmReleaseStatus.
Variable NewInClusterMemoryRESTClientGetter : HelmRelease -> Error + Getter.

(** One iteration of the loop of [checkDependencies]. *)
Definition checkDependency (o : HelmRelease) (d : NamespacedObjectReference)
  : option Error :=
  let dName :=
    {| nnNamespace := if String.eqb (refNamespace d) "" then Namespace o
                      else refNamespace d;
       nnName := refName d |} in
  match Get r dName with
  | inl err =>
      Some (Wrap ("unable to get '" +:+ NamespacedName_String dName
                    +:+ "' dependency: ") err)
  | inr dHr =>
      if negb (Generation dHr =? ObservedGeneration (Status dHr))
         || bool_decide (Conditions (Status dHr) = ∅)
         || negb (conditions.IsTrue dHr meta.ReadyCondition)
      then Some (Err KPlain ("dependency '" +:+ NamespacedName_String dName
                               +:+ "' is not ready"))
      else None
  end.

Fixpoint checkDependencies_from (o : HelmRelease)
  (ds : list NamespacedObjectReference) : option Error :=
  match ds with
  | [] => None
  | d :: ds' =>
      match checkDependency o d with
      | Some err => Some err
      | None => checkDependencies_from o ds'
      end
  end.

Definition checkDependencies (o : HelmRelease) : option Error :=
  checkDependencies_from o (DependsOn (Spec o)).

Definition getHelmChart (hr : HelmRelease) : Error + HelmChartObj :=
  let (namespace, name) := StatusGetHelmChart P (Status hr) in
  let chartName := {| nnNamespace := namespace; nnName := name |} in
  if NoCrossNamespaceRef && negb (String.eqb namespace (Namespace hr))
  then
    inl (Err KAccessDenied
           ("can't access '" +:+ srKind (ChartSourceRef (Spec hr)) +:+ "/"
              +:+ NamespacedName_String
                    {| nnNamespace := srNamespace (ChartSourceRef (Spec hr));
                       nnName := srName (ChartSourceRef (Spec hr)) |}
              +:+ "', cross-namespace references have been blocked"))
  else
    match GetHelmChartObj r chartName with
    | inl err => inl err
    | inr hc => inr hc
    end.

Definition buildRESTClientGetter (o : HelmRelease) : Error + Getter :=
  match SpecKubeConfig (Spec o) with
  | Some kc =>
      let secretName :=
        {| nnNamespace := Namespace o; nnName := SecretRefName kc |} in
      match GetSecret r secretName with
      | inl err =>
          inl (Wrap ("could not get KubeConfig secret '"
                       +:+ NamespacedName_String secretName +:+ "': ") err)
      | inr secret =>
          match ConfigFromSecret P secret (SecretRefKey kc) with
          | inl err => inl err
          | inr kubeConfig => inr (NewMemoryRESTClientGetter P kubeConfig o)
          end
      end
  | None => NewInClusterMemoryRESTClientGetter o
  end.

(** [uninstall] has the statements of the current [reconcileUninstall]. *)
Definition uninstall (getter : Getter) : Fn (option Error) :=
  reconcileUninstall P getter.

Definition reconcileRelease : Fn Outcome := fn (
  (* Mark the resource as under reconciliation. *)
  modify (conditions.MarkReconciling meta.ProgressingReason "");;

  (* Confirm dependencies are Ready before proceeding. *)
  o ← load;
  (if (0 <? Z.of_nat (length (DependsOn (Spec o))))
   then
     match checkDependencies o with
     | Some err =>
         (* r.Eventf(obj, obj.Status.Current.ChartVersion, ...) *)
         match Current (Status o) with
         | None => return_ Panics
         | Some cur =>
             emit (EvEventf (snapChartVersion cur) "Warning"
                     (Sprintf0 P (errors.ErrorString err)))
         end;;
         modify (conditions.MarkFalse meta.ReadyCondition
                   v2c.DependencyNotReadyReason
                   (Sprintf0 P (errors.ErrorString err)));;
         return_ (Returns {| Requeue := false;
                             RequeueAfter := requeueDependency r |} None)
     | None => ret tt
     end
   else ret tt);;

  (* Get the HelmChart object for the release. *)
  o ← load;
  hc ← match getHelmChart o with
       | inl err =>
           if acl.IsAccessDenied err
           then
             modify (conditions.MarkFalse meta.ReadyCondition
                       aclv1.AccessDeniedReason
                       (Sprintf0 P (errors.ErrorString err)));;
             return_ (Returns Result_zero (Some err))
           else
             modify (conditions.MarkFalse meta.ReadyCondition
                       v2c.ArtifactFailedReason
                       (Sprintf0 P ("could not get HelmChart object: "
                                      +:+ errors.ErrorString err)));;
             return_ (Returns Result_zero (Some err))
       | inr hc => ret hc
       end;

  (* Check chart readiness. *)
  (if negb (hcGeneration hc =? hcObservedGeneration hc)
      || negb (conditions.IsReady hc)
   then
     modify (conditions.MarkFalse meta.ReadyCondition "HelmChartNotReady"
               (Sprintf0 P ("HelmChart '" +:+ hcNamespace hc +:+ "/"
                              +:+ hcName hc +:+ "' is not ready")));;
     return_ (Returns {| Requeue := false;
                         RequeueAfter := ChartGetRequeueAfter P hc |} None)
   else ret tt);;

  (* Compose values based from the spec and references. *)
  o ← load;
  values ← match ChartValuesFromReferences P (Namespace o) (GetValues P o)
                   (ValuesFrom (Spec o)) with
           | inl err =>
               modify (conditions.MarkFalse meta.ReadyCondition "ValuesError"
                         (Sprintf0 P (errors.ErrorString err)));;
               return_ (Returns Result_zero (Some err))
           | inr values => ret values
           end;

  (* Load chart from artifact: hc.GetArtifact().URL *)
  art ← match hcArtifact hc with
        | None => return_ Panics
        | Some art => ret art
        end;
  emit (EvLoadChart (artURL art) (artDigest art));;
  loadedChart ← match SecureLoadChartFromURL P (artURL art) (artDigest art) with
                | inl err =>
                    modify (conditions.MarkFalse meta.ReadyCondition
                              v2c.ArtifactFailedReason
                              (Sprintf0 P (errors.ErrorString err)));;
                    return_ (Returns Result_zero (Some err))
                | inr c => ret c
                end;

  (* Build the REST client getter. *)
  o ← load;
  getter ← match buildRESTClientGetter o with
           | inl err =>
               modify (conditions.MarkFalse meta.ReadyCondition "RESTClientError"
                         (Sprintf0 P (errors.ErrorString err)));;
               return_ (Returns Result_zero (Some err))
           | inr g => ret g
           end;

  (* If the release target configuration has changed, we need to uninstall
     the previous release target first. *)
  o ← load;
  (if ReleaseTargetChanged P o (chartName loadedChart)
   then
     err ← call (uninstall getter);
     match err with
     | Some e =>
         if negb (errors.Is_ErrNoCurrent e)
         then return_ (Returns Result_zero (Some e))
         else ret tt
     | None => ret tt
     end;;
     modify (upd_Status clear_Current);;
     modify (upd_Status (set_StorageNamespace ""));;
     return_ (Returns {| Requeue := true; RequeueAfter := 0 |} None)
   else ret tt);;

  (* Set current storage namespace. *)
  modify (fun o => upd_Status (set_StorageNamespace (GetStorageNamespace P o)) o);;

  (* Reset the failure count if the chart or values have changed. *)
  o ← load;
  (if MustResetFailures P o loadedChart values
   then modify (upd_Status (set_FailureCounts 0 0 0))
   else ret tt);;

  (* Set last attempt values. *)
  modify (fun o =>
    upd_Status (set_LastAttempted (Generation o) (chartVersion loadedChart)
                  (DigestValues P values) "") o);;

  (* Construct config factory *)
  o ← load;
  cfg ← match NewConfigFactory P getter (DefaultStorageDriver P)
                (StorageNamespace (Status o)) with
        | inl err =>
            modify (conditions.MarkFalse meta.ReadyCondition "FactoryError"
                      (Sprintf0 P (errors.ErrorString err)));;
            return_ (Returns Result_zero (Some err))
        | inr cfg => ret cfg
        end;

  (* Off we go! *)
  o ← load;
  emit (EvAtomicRelease cfg o loadedChart values);;
  err ← through (fun o => AtomicRelease_Reconcile P cfg o loadedChart values);
  match err with
  | Some e => return_ (Returns Result_zero (Some e))
  | None => ret tt
  end;;
  o ← load;
  return_ (Returns {| Requeue := false; RequeueAfter := GetRequeueAfter P o |} None)).

(** [reconcileDelete] of the earlier revision: the getter is built and the
    uninstall run whatever the status holds, and the finalizer is removed
    at the end of every run that did not return an error. *)
Definition reconcileDelete : Fn (Result * option Error) := fn (
  (* Only uninstall the Helm Release if the resource is not suspended. *)
  o ← load;
  (if negb (Suspend (Spec o))
   then
     (* Build client getter *)
     getter ← match buildRESTClientGetter o with
              | inl err =>
                  modify (conditions.MarkFalse meta.ReadyCondition "GetterError"
                            (Sprintf0 P (errors.ErrorString err)));;
                  return_ (Result_zero, Some err)
              | inr g => ret g
              end;
     err ← call (uninstall getter);
     match err with
     | Some e =>
         if negb (errors.Is_ErrNoCurrent e)
         then return_ (Result_zero, Some e)
         else ret tt
     | None => ret tt
     end
   else ret tt);;

  (* Remove our finalizer from the list. *)
  modify (controllerutil.RemoveFinalizer v2c.HelmReleaseFinalizer);;
  return_ (Result_zero, None)).

End Controller.

End Legacy.

(** * The vocabulary of the statements *)

(** What a store of capacity [n] holds once the entries [h] have been
    inserted, oldest first. *)
Definition holds {A : Type} (n : nat) (h : list A) (s : HistoryStore.t A) : Prop :=
  HistoryStore.capacity s = n
  ∧ HistoryStore.entries s = drop (length h - n) h.

(** The text [sub] occurs in [s]. *)
Definition mentions (s sub : string) : Prop :=
  ∃ pre post, s = pre +:+ sub +:+ post.

(** The object as [reconcileRelease] first marks it. *)
Definition reconciling (o : HelmRelease) : HelmRelease :=
  conditions.MarkReconciling meta.ProgressingReason "" o.

(** The three failure counters of an object. *)
Definition failure_counts (o : HelmRelease) : Z * Z * Z :=
  (InstallFailures (Status o), UpgradeFailures (Status o), Failures (Status o)).

(** The error of the uninstall stops the pass, unless it says that there is
    no current release. *)
Definition uninstall_failed (uerr : option Error) : bool :=
  match uerr with
  | Some e => negb (errors.Is_ErrNoCurrent e)
  | None => false
  end.

(** The state in which the body of [Reconcile] starts on the fetched
    object [o]. *)
Definition entry_state (o : HelmRelease) : State :=
  {| obj := o; trace := [EvRecordSuspend (Suspend (Spec o))] |}.

(** The error [Reconcile] returns, from the error of the reconciliation
    itself and the error of the deferred patch. *)
Definition returned_error (retErr perr : option Error) : option Error :=
  match perr, retErr with
  | Some pe, Some e => Some (Aggregate [e; pe])
  | Some pe, None => Some pe
  | None, _ => retErr
  end.

Section Vocabulary.

Variable P : Packages.
Variable r : HelmReleaseReconciler.

(** A dependency is ready when its object can be fetched, its status was
    observed at its current generation and its Ready condition is true. *)
Definition dependency_ready (o : HelmRelease) (d : NamespacedObjectReference)
  : Prop :=
  ∃ dHr, Get r (dependencyRef o d) = inr dHr
         ∧ ObservedGeneration (Status dHr) = Generation dHr
         ∧ ∃ c, Conditions (Status dHr) !! meta.ReadyCondition = Some c
                ∧ condStatus c = ConditionTrue.

(** The pass on [o] (as marked reconciling) gets as far as the target check:
    the dependencies are ready, the chart object [hc] was fetched and is
    ready with the artifact [art], the values were composed, the chart [c]
    was loaded from the artifact and the client getter [g] was built. *)
Record Resolved (o : HelmRelease) (hc : HelmChartObj) (art : Artifact)
  (values : Values) (c : Chart) (g : Getter) : Prop :=
  { res_deps : checkDependencies r o = None;
    res_chart : getHelmChart P r o = inr hc;
    res_observed : hcGeneration hc = hcObservedGeneration hc;
    res_ready : conditions.IsReady hc = true;
    res_artifact : hcArtifact hc = Some art;
    res_values :
      ChartValuesFromReferences P (Namespace o) (GetValues P o)
        (ValuesFrom (Spec o)) = inr values;
    res_load : SecureLoadChartFromURL P (artURL art) (artDigest art) = inr c;
    res_getter : buildRESTClientGetter P r o = inr g }.

(** The desired revision and digest differ from the pair recorded in the
    status of [o]. *)
Definition attempt_differs (o : HelmRelease) (c : Chart) (values : Values) : Prop :=
  chartVersion c ≠ LastAttemptedRevision (Status o)
  ∨ DigestValues P values ≠ LastAttemptedConfigDigest (Status o).

(** The reset check of the packages is the one the spec gives. *)
Definition resets_as_specified : Prop :=
  ∀ o c values,
    MustResetFailures P o c values = MustResetFailures_spec P o c values.

(** The object on which the reset check is evaluated: the object under
    reconciliation, with the storage namespace set. *)
Definition at_reset_check (o : HelmRelease) : HelmRelease :=
  upd_Status (set_StorageNamespace (GetStorageNamespace P (reconciling o)))
    (reconciling o).

(** How a pass that reaches the target check and finds the target unchanged
    goes on: [oA] is the object once the attempt is recorded.  It is handed
    to the release reconciler, which is the only action of the pass; when
    the action configuration cannot be built, the pass ends on [oA], marked
    not ready. *)
Definition continues_on (o : HelmRelease) (g : Getter) (c : Chart)
  (values : Values) (oA : HelmRelease)
  (out : Result * option Error) (o' : HelmRelease) (acts : list Event) : Prop :=
  match NewConfigFactory P g (DefaultStorageDriver P)
          (GetStorageNamespace P (reconciling o)) with
  | inl err =>
      acts = [] ∧ out = (Result_zero, Some err)
      ∧ o' = conditions.MarkFalse meta.ReadyCondition "FactoryError"
               (Sprintf0 P (errors.ErrorString err)) oA
  | inr cfg =>
      acts = [EvAtomicRelease cfg oA c values]
      ∧ match AtomicRelease_Reconcile P cfg oA c values with
        | (o3, Some e) => out = (Result_zero, Some e) ∧ o' = o3
        | (o3, None) =>
            out = ({| Requeue := false; RequeueAfter := GetRequeueAfter P o3 |},
                   None)
            ∧ o' = o3
        end
  end.

(** The options of the deferred patch after a suspended pass. *)
Definition suspended_patchOpts : list PatchOption :=
  [WithFieldOwner (FieldManager r); WithOwnedConditions;
   WithStatusObservedGeneration].

(** The last attempted revision of the release matches the revision of the
    artifact. *)
Definition revision_matches (a : Artifact) (i : HelmRelease) : Prop :=
  TransformLegacyRevision P (artRevision a)
  = TransformLegacyRevision P (LastAttemptedRevision (Status i)).

End Vocabulary.

(** ** The calls of a pass *)

(** An event that runs a Helm action. *)
Definition is_action (e : Event) : bool :=
  is_uninstall e || is_install_or_upgrade e.

(** The calls one run of [reconcileRelease] can add to the trace. *)
Inductive pass_calls : list Event → Prop :=
| pass_no_call : pass_calls []
| pass_event severity reason msg : pass_calls [EvEventf severity reason msg]
| pass_load url digest : pass_calls [EvLoadChart url digest]
| pass_uninstall url digest cfg o :
    pass_calls [EvLoadChart url digest; EvUninstall cfg o]
| pass_release url digest cfg o c values :
    pass_calls [EvLoadChart url digest; EvAtomicRelease cfg o c values].

(** The calls one run of [reconcileDelete] can add to the trace. *)
Inductive delete_calls : list Event → Prop :=
| delete_no_call : delete_calls []
| delete_uninstall cfg o : delete_calls [EvUninstall cfg o]
| delete_template o : delete_calls [EvChartTemplate o]
| delete_both cfg o o' : delete_calls [EvUninstall cfg o; EvChartTemplate o'].

(** The calls the body of [Reconcile] can add to the trace: those of a
    deletion, or the chart template followed by those of a pass. *)
Inductive body_calls : list Event → Prop :=
| body_delete new : delete_calls new → body_calls new
| body_pass o new : pass_calls new → body_calls (EvChartTemplate o :: new).

(** The reasons with which a pass marks the release not Ready itself. *)
Definition pass_failure_reasons : list string :=
  [v2c.DependencyNotReadyReason; aclv1.AccessDeniedReason;
   v2c.ArtifactFailedReason; "HelmChartNotReady"; "ValuesError";
   "RESTClientError"; "ConfigFactoryErr"; "FactoryError"].

(** The metadata and the spec of [o'] are those of [o]. *)
Definition same_identity (o o' : HelmRelease) : Prop :=
  Namespace o' = Namespace o ∧ Name o' = Name o
  ∧ Generation o' = Generation o
  ∧ DeletionTimestamp o' = DeletionTimestamp o
  ∧ Finalizers o' = Finalizers o
  ∧ Spec o' = Spec o.

(** A collaborator that leaves the deletion timestamp and the finalizers of
    the object as they are. *)
Definition keeps_metadata (f : HelmRelease → HelmRelease * option Error) : Prop :=
  ∀ o, DeletionTimestamp (f o).1 = DeletionTimestamp o
       ∧ Finalizers (f o).1 = Finalizers o.

(** The string has a colon. *)
Fixpoint has_colon (s : string) : bool :=
  match s with
  | EmptyString => false
  | String c s' => Ascii.eqb c ":"%char || has_colon s'
  end.

(** The name [reconcileReleaseDeletion] looks the impersonated service
    account up under: what follows the last colon of the user name. *)
Definition impersonated_account (cfg : RestConfig) : string :=
  match after_last_colon (ImpersonateUserName cfg) with
  | Some sa => sa
  | None => ImpersonateUserName cfg
  end.

(** The deletion may go on to the uninstall with the getter [g]: the release
    has its own kubeconfig, or the getter impersonates no user, or the
    impersonated service account is found in the namespace of the release. *)
Definition account_confirmed (P : Packages) (r : HelmReleaseReconciler)
  (o : HelmRelease) (g : Getter) : Prop :=
  match SpecKubeConfig (Spec o) with
  | Some _ => True
  | None =>
      ∃ cfg, ToRESTConfig P g = inr cfg
             ∧ (ImpersonateUserName cfg = ""
                ∨ GetServiceAccount r {| nnNamespace := Namespace o;
                                         nnName := impersonated_account cfg |}
                  = None)
  end.

(** * A sample cluster *)

(** Concrete objects and collaborators on which the theorems above are
    instantiated: the release apps/web, deployed from the chart web, with a
    dependency on apps/db in some of the scenarios. *)
Module Sample.

Definition snapshot : Snapshot :=
  {| snapName := "web"; snapNamespace := "apps"; snapVersion := 4;
     snapChartName := "web"; snapChartVersion := "1.0.0";
     snapConfigDigest := "sha256:replicas" |}.

Definition status : HelmReleaseStatus :=
  {| ObservedGeneration := 2;
     Conditions := {[ meta.ReadyCondition :=
                        conditions.FalseCondition "UpgradeFailed" "timed out" ]};
     HelmChart := "apps/apps-web";
     StorageNamespace := "apps";
     History := [snapshot];
     InstallFailures := 1;
     UpgradeFailures := 2;
     Failures := 3;
     LastAttemptedGeneration := 2;
     LastAttemptedRevision := "1.0.0";
     LastAttemptedConfigDigest := "sha256:replicas";
     LastAttemptedValuesChecksum := "" |}.

(** The release apps/web, with the given suspend flag, dependencies and
    target namespace. *)
Definition release (suspend : bool) (deps : list NamespacedObjectReference)
  (target : string) : HelmRelease :=
  {| Namespace := "apps"; Name := "web"; Generation := 3;
     DeletionTimestamp := None;
     Finalizers := [v2c.HelmReleaseFinalizer];
     Spec := {| Suspend := suspend;
                ChartSourceRef := {| srKind := "HelmRepository";
                                     srNamespace := "apps"; srName := "charts" |};
                DependsOn := deps;
                SpecKubeConfig := None; ServiceAccountName := "";
                ValuesFrom := []; SpecValues := [("replicas", VNumber 2)];
                TargetNamespace := target; ReleaseName := "web";
                SpecStorageNamespace := ""; Interval := 600 |};
     Status := status |}.

Definition web : HelmRelease := release false [] "".

(** The release moved to another namespace, its chart staying where it
    is. *)
Definition in_namespace (ns : string) (o : HelmRelease) : HelmRelease :=
  {| Namespace := ns; Name := Name o; Generation := Generation o;
     DeletionTimestamp := DeletionTimestamp o; Finalizers := Finalizers o;
     Spec := Spec o; Status := Status o |}.

(** The dependency apps/db: observed at its generation, not ready. *)
Definition db : HelmRelease :=
  {| Namespace := "apps"; Name := "db"; Generation := 1;
     DeletionTimestamp := None; Finalizers := [v2c.HelmReleaseFinalizer];
     Spec := Spec web;
     Status := set_Conditions
                 {[ meta.ReadyCondition :=
                      conditions.FalseCondition "InstallFailed" "no nodes" ]}
                 (set_FailureCounts 1 0 1 status) |}.

Definition artifact : Artifact :=
  {| artURL := "http://source-controller/helmchart/apps/apps-web/web-1.1.0.tgz";
     artRevision := "1.1.0"; artDigest := "sha256:c0ffee" |}.

Definition chartObject : HelmChartObj :=
  {| hcNamespace := "apps"; hcName := "apps-web";
     hcGeneration := 5; hcObservedGeneration := 5;
     hcConditions := {[ meta.ReadyCondition :=
                          conditions.TrueCondition "ChartPullSucceeded" "" ]};
     hcArtifact := Some artifact; hcInterval := 300 |}.

Definition chart : Chart := {| chartName := "web"; chartVersion := "1.1.0" |}.

Definition clusterConfig : RestConfig :=
  {| Host := "https://kubernetes.default.svc"; ImpersonateUserName := "" |}.

Definition unavailable : Error :=
  Err KPlain "the server is currently unable to handle the request".

Definition timeout : Error := Err KPlain "uninstall: timed out waiting for the condition".

Definition denied : Error :=
  Err KAccessDenied "cross-namespace references are not allowed".

(** The API client: apps/db and apps/web exist, the chart object exists. *)
Definition reconciler : HelmReleaseReconciler :=
  {| Get := λ ref,
       if decide (ref = {| nnNamespace := "apps"; nnName := "db" |}) then inr db
       else if decide (ref = {| nnNamespace := "apps"; nnName := "web" |})
            then inr web
            else inl (Err KNotFound "helmreleases.helm.toolkit.fluxcd.io not found");
     GetHelmChartObj := λ _, inr chartObject;
     GetSecret := λ _, inl (Err KNotFound "secrets not found");
     GetServiceAccount := λ _, None;
     ListBySource := λ _, inr [web];
     GetClusterConfig := inr clusterConfig;
     FieldManager := "helm-controller";
     requeueDependency := 30000000000 |}.

(** The same client, on which apps/web reads as [o]. *)
Definition reconciler_with (o : HelmRelease) : HelmReleaseReconciler :=
  {| Get := λ ref,
       if decide (ref = {| nnNamespace := "apps"; nnName := "web" |})
       then inr o else Get reconciler ref;
     GetHelmChartObj := GetHelmChartObj reconciler;
     GetSecret := GetSecret reconciler;
     GetServiceAccount := GetServiceAccount reconciler;
     ListBySource := ListBySource reconciler;
     GetClusterConfig := GetClusterConfig reconciler;
     FieldManager := FieldManager reconciler;
     requeueDependency := requeueDependency reconciler |}.

(** The release namespace of the object. *)
Definition releaseNamespace (o : HelmRelease) : string :=
  if String.eqb (TargetNamespace (Spec o)) "" then Namespace o
  else TargetNamespace (Spec o).

(** The packages, with the answers that vary between scenarios: the access
    check, the error of the uninstall and the error of the patch. *)
Definition packages (access uninstall patch : option Error) : Packages :=
  {| GetValues := λ o, SpecValues (Spec o);
     GetStorageNamespace := λ o,
       if String.eqb (SpecStorageNamespace (Spec o)) "" then releaseNamespace o
       else SpecStorageNamespace (Spec o);
     GetReleaseNamespace := releaseNamespace;
     GetRequeueAfter := λ o, Interval (Spec o);
     UsePersistentClient := λ _, true;
     StatusGetHelmChart := λ _, ("apps", "apps-web");
     ChartGetRequeueAfter := hcInterval;
     TransformLegacyRevision := λ rev, rev;
     AllowsAccessTo := λ _ _ _, access;
     ChartValuesFromReferences := λ _ values _, inr values;
     DigestValues := λ values, "sha256:" +:+ String.concat "," (values.*1);
     SecureLoadChartFromURL := λ _ _, inr chart;
     ConfigFromSecret := λ _ _, inr clusterConfig;
     ToRESTConfig := λ g, inr (gConfig g);
     DefaultStorageDriver := "secret";
     NewConfigFactory := λ g driver ns,
       inr {| cfGetter := g; cfStorageDriver := driver; cfStorageNamespace := ns |};
     (* the target changed when the release namespace or the chart name is
        not the one of the latest snapshot *)
     MustResetFailures := λ o c values,
       negb (String.eqb (chartVersion c) (LastAttemptedRevision (Status o)))
       || negb (String.eqb ("sha256:" +:+ String.concat "," (values.*1))
                  (LastAttemptedConfigDigest (Status o)));
     ReleaseTargetChanged := λ o name,
       match History (Status o) with
       | [] => false
       | cur :: _ =>
           negb (String.eqb (releaseNamespace o) (snapNamespace cur))
           || negb (String.eqb name (snapChartName cur))
       end;
     HelmChartTemplate_Reconcile := λ o, (o, None);
     Uninstall_Reconcile := λ _ o, (o, uninstall);
     AtomicRelease_Reconcile := λ _ o _ _, (o, None);
     Patch := λ o _, (o, patch);
     Sprintf0 := λ msg, msg |}.

Definition getter (o : HelmRelease) : Getter :=
  {| gConfig := clusterConfig; gNamespace := releaseNamespace o;
     gImpersonateName := ""; gImpersonateNamespace := "apps";
     gPersistent := true |}.

(** The same client with other answers for the chart object, for the
    service accounts and for the configuration of the cluster. *)
Definition reconciler_of (chartAnswer : Error + HelmChartObj)
  (account : option Error) (cluster : RestConfig) : HelmReleaseReconciler :=
  {| Get := Get reconciler;
     GetHelmChartObj := λ _, chartAnswer;
     GetSecret := GetSecret reconciler;
     GetServiceAccount := λ _, account;
     ListBySource := ListBySource reconciler;
     GetClusterConfig := inr cluster;
     FieldManager := FieldManager reconciler;
     requeueDependency := requeueDependency reconciler |}.

(** The same client while the API server does not answer the list call:
    the objects are the same, the releases indexed under a chart cannot be
    listed. *)
Definition reconciler_unlisted : HelmReleaseReconciler :=
  {| Get := Get reconciler;
     GetHelmChartObj := GetHelmChartObj reconciler;
     GetSecret := GetSecret reconciler;
     GetServiceAccount := GetServiceAccount reconciler;
     ListBySource := λ _, inl unavailable;
     GetClusterConfig := GetClusterConfig reconciler;
     FieldManager := FieldManager reconciler;
     requeueDependency := requeueDependency reconciler |}.

(** The chart object reported ready at its generation while no artifact is
    stored for it. *)
Definition chartPending : HelmChartObj :=
  {| hcNamespace := "apps"; hcName := "apps-web";
     hcGeneration := 5; hcObservedGeneration := 5;
     hcConditions := hcConditions chartObject;
     hcArtifact := None; hcInterval := 300 |}.

Definition chartMissing : Error :=
  Err KNotFound "helmcharts.source.toolkit.fluxcd.io apps-web not found".

Definition accountMissing : Error :=
  Err KNotFound "serviceaccounts deployer not found".

(** The cluster configuration that impersonates the service account
    apps/deployer. *)
Definition impersonating : RestConfig :=
  {| Host := "https://kubernetes.default.svc";
     ImpersonateUserName := "system:serviceaccount:apps:deployer" |}.

Definition templateFailure : Error :=
  Err KPlain "failed to create HelmChart apps/apps-web: admission webhook denied the request".

(** The packages whose chart template reconciler returns [template] and
    whose patch returns [patch]. *)
Definition packages_template (template patch : option Error) : Packages :=
  let base := packages None None patch in
  {| GetValues := GetValues base;
     GetStorageNamespace := GetStorageNamespace base;
     GetReleaseNamespace := GetReleaseNamespace base;
     GetRequeueAfter := GetRequeueAfter base;
     UsePersistentClient := UsePersistentClient base;
     StatusGetHelmChart := StatusGetHelmChart base;
     ChartGetRequeueAfter := ChartGetRequeueAfter base;
     TransformLegacyRevision := TransformLegacyRevision base;
     AllowsAccessTo := AllowsAccessTo base;
     ChartValuesFromReferences := ChartValuesFromReferences base;
     DigestValues := DigestValues base;
     SecureLoadChartFromURL := SecureLoadChartFromURL base;
     ConfigFromSecret := ConfigFromSecret base;
     ToRESTConfig := ToRESTConfig base;
     DefaultStorageDriver := DefaultStorageDriver base;
     NewConfigFactory := NewConfigFactory base;
     MustResetFailures := MustResetFailures base;
     ReleaseTargetChanged := ReleaseTargetChanged base;
     HelmChartTemplate_Reconcile := λ o, (o, template);
     Uninstall_Reconcile := Uninstall_Reconcile base;
     AtomicRelease_Reconcile := AtomicRelease_Reconcile base;
     Patch := Patch base;
     Sprintf0 := Sprintf0 base |}.

(** The release once its deletion was requested, with the given reference
    to a kubeconfig secret. *)
Definition under_deletion (kubeConfig : option KubeConfig) (o : HelmRelease)
  : HelmRelease :=
  {| Namespace := Namespace o; Name := Name o; Generation := Generation o;
     DeletionTimestamp := Some 1791072000;
     Finalizers := Finalizers o;
     Spec := {| Suspend := Suspend (Spec o);
                ChartSourceRef := ChartSourceRef (Spec o);
                DependsOn := DependsOn (Spec o);
                SpecKubeConfig := kubeConfig;
                ServiceAccountName := ServiceAccountName (Spec o);
                ValuesFrom := ValuesFrom (Spec o);
                SpecValues := SpecValues (Spec o);
                TargetNamespace := TargetNamespace (Spec o);
                ReleaseName := ReleaseName (Spec o);
                SpecStorageNamespace := SpecStorageNamespace (Spec o);
                Interval := Interval (Spec o) |};
     Status := Status o |}.

End Sample.

(** The scenarios of the release apps/web. *)

(** apps/web with a dependency on db, whose namespace is left unset. *)
Definition web_after_db : HelmRelease :=
  Sample.release false [{| refNamespace := ""; refName := "db" |}] "".

(** apps/web retargeted to the namespace prod, while its latest snapshot is
    in apps. *)
Definition web_moved : HelmRelease := Sample.release false [] "prod".

(** apps/web suspended. *)
Definition web_suspended : HelmRelease := Sample.release true [] "".

Definition web_key : NamespacedName := {| nnNamespace := "apps"; nnName := "web" |}.

(** The release team-a/web, whose chart is in the namespace apps. *)
Definition web_elsewhere : HelmRelease := Sample.in_namespace "team-a" Sample.web.

(** apps/web before the controller has added its finalizer. *)
Definition web_new : HelmRelease := set_Finalizers [] Sample.web.

Definition blocked : Error :=
  Err KAccessDenied
    "can't access 'HelmRepository/apps/charts', cross-namespace references have been blocked".

(** apps/web once its deletion was requested. *)
Definition web_deleted : HelmRelease := Sample.under_deletion None Sample.web.

(** The same release, deployed to another cluster through the kubeconfig of
    a secret that is gone. *)
Definition web_remote_deleted : HelmRelease :=
  Sample.under_deletion
    (Some {| SecretRefName := "prod-kubeconfig"; SecretRefKey := "value" |})
    Sample.web.

(** * Properties *)

(** ** The history bound *)

Section HistoryBound.

Context {A : Type}.
Implicit Types (xs h : list A) (s : HistoryStore.t A).

Local Open Scope nat_scope.

Lemma holds_empty n : holds n ([] : list A) (HistoryStore.empty n).
Proof. split; [done | by rewrite drop_nil]. Qed.

Lemma holds_insert n h s x :
  holds n h s → holds n (h ++ [x]) (HistoryStore.insert s x).
Proof.
  intros [Hc He]. split; [done |].
  unfold HistoryStore.insert. cbn [HistoryStore.entries HistoryStore.capacity].
  rewrite Hc, He, !length_app, length_drop. cbn [length].
  destruct (decide (length h < n)) as [Hlt | Hge].
  - replace (length h - n) with 0 by lia.
    replace (length h + 1 - n) with 0 by lia.
    rewrite !drop_0.
    destruct (Nat.ltb_spec n (length h - 0 + 1)); [lia | done].
  - destruct (Nat.ltb_spec n (length h - (length h - n) + 1)); [| lia].
    replace (length h + 1 - n) with (length h - n + 1) by lia.
    rewrite <- drop_app_le by lia.
    rewrite <- drop_drop. by destruct (drop (length h - n) (h ++ [x])).
Qed.

Lemma holds_insert_all n xs : ∀ h s,
  holds n h s → holds n (h ++ xs) (HistoryStore.insert_all s xs).
Proof.
  induction xs as [| x xs IH]; intros h s Hs; cbn.
  - by rewrite app_nil_r.
  - rewrite (assoc_L _ h [x] xs : h ++ x :: xs = (h ++ [x]) ++ xs).
    apply IH. by apply holds_insert.
Qed.

End HistoryBound.

(** C8: after inserting a sequence into an empty store of capacity [N], the
    store holds exactly the last [N] entries of the sequence (all of them
    when the sequence is not longer than [N]); the entries dropped are the
    oldest ones, which with the entries kept make up the sequence. *)
Theorem history_bound (A : Type) (N : nat) (xs : list A) :
  let s := HistoryStore.insert_all (HistoryStore.empty N) xs in
  HistoryStore.entries s = drop (length xs - N) xs
  ∧ take (length xs - N) xs ++ HistoryStore.entries s = xs
  ∧ ((N < length xs)%nat → HistoryStore.len s = N)
  ∧ ((length xs ≤ N)%nat → HistoryStore.entries s = xs).
Proof.
  intros s.
  destruct (holds_insert_all N xs [] (HistoryStore.empty N) (holds_empty N))
    as [_ He].
  cbn [app] in He. fold s in He.
  split; [exact He |]. rewrite He. split; [apply take_drop |]. split.
  - intros Hlt. unfold HistoryStore.len. rewrite He, length_drop. lia.
  - intros Hle. replace (length xs - N)%nat with 0%nat by lia. apply drop_0.
Qed.

(** The store on the input of [TestLogBuffer_Log]: size 2, filled with
    a, b, c, it holds b and c. *)
Example history_store_log_test :
  HistoryStore.entries
    (HistoryStore.insert_all (HistoryStore.empty 2) ["a"; "b"; "c"])
  = ["b"; "c"].
Proof. reflexivity. Qed.

(** The store on the inputs of [TestLogBuffer_Len] that give a size. *)
Example history_store_len_test :
  HistoryStore.len (HistoryStore.insert_all (HistoryStore.empty 2) ["a"; "b"]) = 2%nat
  ∧ HistoryStore.len (HistoryStore.insert_all (HistoryStore.empty 4) ["a"; "b"]) = 2%nat.
Proof. split; reflexivity. Qed.

(** ** The dependency gate *)

Section DependencyGate.

Variable r : HelmReleaseReconciler.

Lemma IsTrue_spec (o : HelmRelease) (t : string) :
  conditions.IsTrue o t = true
  ↔ ∃ c, Conditions (Status o) !! t = Some c ∧ condStatus c = ConditionTrue.
Proof.
  unfold conditions.IsTrue, conditions.is_true.
  destruct (Conditions (Status o) !! t) as [c |].
  - rewrite bool_decide_eq_true. split; [eauto | by intros (? & [= <-] & ?)].
  - split; [done | by intros (? & ? & ?)].
Qed.

Lemma checkDependency_None o d :
  checkDependency r o d = None ↔ dependency_ready r o d.
Proof.
  unfold checkDependency, dependency_ready.
  destruct (Get r (dependencyRef o d)) as [err | dHr].
  - split; [done | by intros (? & ? & _)].
  - destruct (Z.eqb_spec (Generation dHr) (ObservedGeneration (Status dHr)))
      as [Hg | Hg]; cbn [negb orb].
    + destruct (conditions.IsTrue dHr meta.ReadyCondition) eqn:Ht; cbn [negb].
      * apply IsTrue_spec in Ht. split; [eauto 6 | done].
      * split; [done |]. intros (? & [= <-] & _ & Hc).
        apply IsTrue_spec in Hc. congruence.
    + split; [done |]. intros (? & [= <-] & ? & _). congruence.
Qed.

Lemma render_singleton (m : string) : errors.render [m] = m.
Proof. reflexivity. Qed.

Lemma string_app_assoc (s1 s2 s3 : string) :
  (s1 +:+ s2) +:+ s3 = s1 +:+ s2 +:+ s3.
Proof.
  induction s1 as [| c s1 IH]; [reflexivity |].
  change (String c ((s1 +:+ s2) +:+ s3) = String c (s1 +:+ s2 +:+ s3)).
  by rewrite IH.
Qed.

(** The error of one iteration names the dependency it was raised for. *)
Lemma checkDependency_names o d err :
  checkDependency r o d = Some err →
  mentions (errors.ErrorString err) (NamespacedName_String (dependencyRef o d)).
Proof.
  unfold checkDependency.
  destruct (Get r (dependencyRef o d)) as [e | dHr].
  - intros [= <-]. unfold errors.ErrorString. cbn [errors.messages].
    rewrite render_singleton.
    exists "unable to get '", ("' dependency: " +:+ errors.render (errors.messages e)).
    by rewrite !string_app_assoc.
  - destruct (_ || _); [| done]. intros [= <-].
    by exists "dependency '", "' is not ready".
Qed.

Lemma checkDependencies_from_None o ds :
  checkDependencies_from r o ds = None ↔ Forall (dependency_ready r o) ds.
Proof.
  induction ds as [| d ds IH]; cbn [checkDependencies_from].
  - split; [constructor | done].
  - rewrite Forall_cons, <- IH, <- checkDependency_None.
    destruct (checkDependency r o d); (split; [by intros | by intros [? ?]]).
Qed.

Lemma checkDependencies_from_Some o ds err :
  checkDependencies_from r o ds = Some err →
  ∃ ds1 d ds2,
    ds = ds1 ++ d :: ds2
    ∧ Forall (dependency_ready r o) ds1
    ∧ ¬ dependency_ready r o d
    ∧ checkDependency r o d = Some err.
Proof.
  induction ds as [| d ds IH]; cbn [checkDependencies_from]; [done |].
  destruct (checkDependency r o d) as [e |] eqn:Hd.
  - intros [= <-]. exists [], d, ds. repeat split; [constructor | | done].
    rewrite <- checkDependency_None. congruence.
  - intros H. destruct (IH H) as (ds1 & d' & ds2 & -> & H1 & H2 & H3).
    exists (d :: ds1), d', ds2. repeat split; [| done | done].
    constructor; [by apply checkDependency_None | done].
Qed.

(** C4: the dependency check returns nil exactly when every entry of the
    dependency list, its namespace defaulting to that of the release, can be
    fetched, was observed at its generation and has a true Ready condition;
    otherwise the error is the one raised for the first entry that is not
    ready, and its message names that entry. *)
Theorem checkDependencies_gate (o : HelmRelease) :
  (checkDependencies r o = None
   ↔ Forall (dependency_ready r o) (DependsOn (Spec o)))
  ∧ (∀ d, nnNamespace (dependencyRef o d)
          = (if String.eqb (refNamespace d) "" then Namespace o
             else refNamespace d)
          ∧ nnName (dependencyRef o d) = refName d)
  ∧ (∀ err, checkDependencies r o = Some err
       ↔ ∃ ds1 d ds2,
           DependsOn (Spec o) = ds1 ++ d :: ds2
           ∧ Forall (dependency_ready r o) ds1
           ∧ ¬ dependency_ready r o d
           ∧ checkDependency r o d = Some err
           ∧ mentions (errors.ErrorString err)
               (NamespacedName_String (dependencyRef o d))).
Proof.
  unfold checkDependencies. split; [apply checkDependencies_from_None |].
  split; [done |]. intros err. split.
  - intros H. destruct (checkDependencies_from_Some _ _ _ H)
      as (ds1 & d & ds2 & ? & ? & ? & Hd).
    exists ds1, d, ds2. repeat split; try done.
    by apply checkDependency_names.
  - intros (ds1 & d & ds2 & -> & H1 & _ & Hd & _).
    induction H1 as [| d1 ds1 Hd1 _ IH]; cbn [app checkDependencies_from].
    + by rewrite Hd.
    + apply checkDependency_None in Hd1. by rewrite Hd1.
Qed.

End DependencyGate.

(** ** The reconciliation pass *)

(** Unfolding of the monad of function bodies. *)
Ltac unfold_body :=
  unfold fn, bind, load, modify, emit, ret, return_, call, through.

Section Pass.

Variable P : Packages.
Variable r : HelmReleaseReconciler.

(** The dependency check reads the namespace and the spec of the release
    only. *)
Lemma checkDependencies_from_ext o o' ds :
  Namespace o = Namespace o' →
  checkDependencies_from r o ds = checkDependencies_from r o' ds.
Proof.
  intros Hn. induction ds as [| d ds IH]; [done |].
  cbn [checkDependencies_from]. rewrite IH.
  by unfold checkDependency, dependencyRef; rewrite Hn.
Qed.

Lemma checkDependencies_reconciling o :
  checkDependencies r (reconciling o) = checkDependencies r o.
Proof. by apply checkDependencies_from_ext. Qed.

(** C3: when a dependency of the release is missing, cannot be fetched or is
    not ready, the pass stops at the gate: it marks the release not ready
    with the cause, emits the event, loads no chart, runs no Helm action,
    and asks for a requeue after the configured dependency interval, with a
    nil error. *)
Theorem dependency_gate_requeue (o : HelmRelease) (tr : list Event) :
  ¬ Forall (dependency_ready r o) (DependsOn (Spec o)) →
  ∃ err msg,
    checkDependencies r o = Some err
    ∧ msg = Sprintf0 P (errors.ErrorString err)
    ∧ reconcileRelease P r {| obj := o; trace := tr |}
      = (({| Requeue := false; RequeueAfter := requeueDependency r |}, None),
         {| obj := conditions.MarkFalse meta.ReadyCondition
                     v2c.DependencyNotReadyReason msg (reconciling o);
            trace := tr ++ [EvEventf eventv1.EventSeverityInfo
                              v2c.DependencyNotReadyReason msg] |}).
Proof.
  intros Hnot.
  destruct (checkDependencies r o) as [err |] eqn:Hc.
  2: { destruct Hnot. by apply checkDependencies_from_None. }
  exists err, (Sprintf0 P (errors.ErrorString err)). split; [done |]. split; [done |].
  unfold reconcileRelease. unfold_body. cbn [obj trace].
  fold (reconciling o). rewrite checkDependencies_reconciling, Hc.
  destruct (DependsOn (Spec o)) eqn:Hd; [by unfold checkDependencies in Hc; rewrite Hd in Hc |].
  cbn. rewrite Hd. cbn. done.
Qed.

(** Running the pass up to a point where the hypotheses decide the
    branches: the state is kept in the form of a record. *)
Ltac start_pass o :=
  unfold reconcileRelease; unfold_body; cbn [obj trace];
  fold (reconciling o); rewrite ?checkDependencies_reconciling.

(** C6: when the chart object cannot be fetched because access across the
    namespace boundary is denied, the pass marks the release Stalled and not
    Ready, removes the Reconciling condition, runs no action, and returns
    the zero result with a terminal error; the deferred patch then records
    the observed generation. *)
Theorem access_denied_stalls (o : HelmRelease) (tr : list Event) (err : Error) :
  checkDependencies r o = None →
  getHelmChart P r (reconciling o) = inl err →
  acl.IsAccessDenied err = true →
  ∃ o' msg,
    reconcileRelease P r {| obj := o; trace := tr |}
    = ((Result_zero, Some (Terminal err)), {| obj := o'; trace := tr |})
    ∧ msg = Sprintf0 P (errors.ErrorString err)
    ∧ Conditions (Status o') !! meta.StalledCondition
      = Some (conditions.TrueCondition aclv1.AccessDeniedReason msg)
    ∧ Conditions (Status o') !! meta.ReadyCondition
      = Some (conditions.FalseCondition aclv1.AccessDeniedReason msg)
    ∧ Conditions (Status o') !! meta.ReconcilingCondition = None
    ∧ Result_IsZero Result_zero = true
    ∧ errors.Is_TerminalError (Terminal err) = true
    ∧ WithStatusObservedGeneration ∈ patchOpts r Result_zero (Some (Terminal err)).
Proof.
  intros Hdeps Hchart Hdenied.
  eexists _, _. split.
  - start_pass o. rewrite Hdeps. destruct (0 <? _); cbn [obj trace];
      by rewrite Hchart, Hdenied.
  - split; [done |]. cbn.
    unfold meta.StalledCondition, meta.ReadyCondition, meta.ReconcilingCondition.
    repeat split; try done; try by simplify_map_eq.
    rewrite !elem_of_cons. auto.
Qed.

(** *** Passes that reach the target check *)

Lemma MustResetFailures_spec_true o c values :
  MustResetFailures_spec P o c values = true ↔ attempt_differs P o c values.
Proof.
  unfold MustResetFailures_spec, attempt_differs.
  rewrite orb_true_iff, !negb_true_iff.
  by rewrite <- !not_true_iff_false, !String.eqb_eq.
Qed.

Lemma MustResetFailures_spec_false o c values :
  MustResetFailures_spec P o c values = false
  ↔ chartVersion c = LastAttemptedRevision (Status o)
    ∧ DigestValues P values = LastAttemptedConfigDigest (Status o).
Proof.
  unfold MustResetFailures_spec.
  by rewrite orb_false_iff, !negb_false_iff, !String.eqb_eq.
Qed.

Lemma if_same {A : Type} (b : bool) (x : A) : (if b then x else x) = x.
Proof. by destruct b. Qed.

(** Runs a pass that satisfies [Resolved] up to the target check. *)
Ltac pass_to_target o H :=
  let Hd := fresh in let Hc := fresh in let Hg := fresh in
  let Hr := fresh in let Ha := fresh in let Hv := fresh in
  let Hl := fresh in let Hb := fresh in
  destruct H as [Hd Hc Hg Hr Ha Hv Hl Hb];
  unfold reconcileRelease; unfold_body; cbn [obj trace];
  fold (reconciling o);
  rewrite Hd, if_same; cbn [obj trace];
  rewrite Hc; cbn [obj trace];
  rewrite Hg, Z.eqb_refl, Hr; cbn [negb orb];
  rewrite Ha; cbn [obj trace];
  rewrite Hv; cbn [obj trace];
  rewrite Hl; cbn [obj trace];
  rewrite Hb; cbn [obj trace].

(** C2, as amended: when the pass finds the release target changed, it runs
    no install or upgrade and loads nothing further; it runs the uninstall
    once, on the object and the storage namespace as recorded, unless the
    action configuration cannot be built.  When the uninstall returns no
    error, or reports that there is no current release, the history and the
    storage namespace are cleared and an immediate requeue is requested; any
    other error is returned with the zero result, and the object stays as
    the uninstall left it. *)
Theorem target_change_uninstalls (o : HelmRelease) (tr : list Event)
  (hc : HelmChartObj) (art : Artifact) (values : Values) (c : Chart) (g : Getter) :
  Resolved P r (reconciling o) hc art values c g →
  ReleaseTargetChanged P (reconciling o) (chartName c) = true →
  ∃ out o' acts o2 uerr,
    reconcileRelease P r {| obj := o; trace := tr |}
    = (out, {| obj := o';
               trace := tr ++ EvLoadChart (artURL art) (artDigest art) :: acts |})
    ∧ List.filter is_install_or_upgrade acts = []
    ∧ List.filter is_chart_load acts = []
    ∧ match NewConfigFactory P g (DefaultStorageDriver P)
              (StorageNamespace (Status o)) with
      | inl err =>
          acts = [] ∧ uerr = Some err
          ∧ o2 = conditions.MarkFalse meta.ReadyCondition "ConfigFactoryErr"
                   (Sprintf0 P (errors.ErrorString err)) (reconciling o)
      | inr cfg =>
          acts = [EvUninstall cfg (reconciling o)]
          ∧ (o2, uerr) = Uninstall_Reconcile P cfg (reconciling o)
      end
    ∧ if uninstall_failed uerr
      then out = (Result_zero, uerr) ∧ o' = o2
      else out = ({| Requeue := true; RequeueAfter := 0 |}, None)
           ∧ History (Status o') = []
           ∧ StorageNamespace (Status o') = ""
           ∧ o' = upd_Status (set_StorageNamespace "")
                    (upd_Status (set_History []) o2).
Proof.
  intros Hres Hchanged.
  pass_to_target o Hres.
  rewrite Hchanged; unfold reconcileUninstall; unfold_body; cbn [obj trace].
  change (StorageNamespace (Status (reconciling o)))
    with (StorageNamespace (Status o)).
  destruct (NewConfigFactory P g (DefaultStorageDriver P)
              (StorageNamespace (Status o))) as [err | cfg];
    cbn [obj trace];
    [| destruct (Uninstall_Reconcile P cfg (reconciling o)) as [o2 [err |]];
       cbn [obj trace]];
    try destruct (errors.Is_ErrNoCurrent err) eqn:Hno; cbn [negb obj trace];
    rewrite <- ?(assoc_L (++)); cbn [app];
    (eexists _, _, _, _, _; split; [reflexivity |]);
    (split; [done |]; split; [done |]; split; [by repeat split |]);
    unfold uninstall_failed; rewrite ?Hno; by repeat split.
Qed.

Lemma pass_records_attempt (o : HelmRelease) (tr : list Event)
  (hc : HelmChartObj) (art : Artifact) (values : Values) (c : Chart) (g : Getter) :
  Resolved P r (reconciling o) hc art values c g →
  ReleaseTargetChanged P (reconciling o) (chartName c) = false →
  ∃ out o' acts oA,
    reconcileRelease P r {| obj := o; trace := tr |}
    = (out, {| obj := o';
               trace := tr ++ EvLoadChart (artURL art) (artDigest art) :: acts |})
    ∧ continues_on P o g c values oA out o' acts
    ∧ LastAttemptedGeneration (Status oA) = Generation o
    ∧ LastAttemptedRevision (Status oA) = chartVersion c
    ∧ LastAttemptedConfigDigest (Status oA) = DigestValues P values
    ∧ LastAttemptedValuesChecksum (Status oA) = ""
    ∧ StorageNamespace (Status oA) = GetStorageNamespace P (reconciling o)
    ∧ failure_counts oA
      = (if MustResetFailures P (at_reset_check P o) c values
         then (0, 0, 0) else failure_counts o).
Proof.
  intros Hres Hsame.
  pass_to_target o Hres.
  rewrite Hsame; cbn [obj trace].
  fold (at_reset_check P o).
  unfold continues_on.
  destruct (MustResetFailures P (at_reset_check P o) c values); cbn [obj trace];
    match goal with
    | |- context [NewConfigFactory P g (DefaultStorageDriver P) ?x] =>
        change x with (GetStorageNamespace P (reconciling o))
    end;
    (destruct (NewConfigFactory P g (DefaultStorageDriver P)
                 (GetStorageNamespace P (reconciling o))) as [err | cfg];
     cbn [obj trace];
     [| match goal with
        | |- context [AtomicRelease_Reconcile P cfg ?x c values] =>
            destruct (AtomicRelease_Reconcile P cfg x c values)
              as [o3 [e |]] eqn:Hrel
        end; cbn [obj trace]]);
    rewrite <- ?(assoc_L (++)); cbn [app];
    (eexists _, _, _, _; split; [reflexivity |]);
    (split; [repeat split; try reflexivity; by rewrite ?Hrel |]);
    by repeat split.
Qed.

(** C1: when the reset check is the one the spec gives, in every pass that
    reaches it the object on which the attempt is recorded, which is the one
    the release reconciler receives, has its three failure counters at zero
    if the chart version or the digest of the composed values differs from
    the pair recorded in the status, whatever the counters were; if both are
    unchanged, the three counters are the ones the status had. *)
Theorem failure_counters_reset (o : HelmRelease) (tr : list Event)
  (hc : HelmChartObj) (art : Artifact) (values : Values) (c : Chart) (g : Getter) :
  resets_as_specified P →
  Resolved P r (reconciling o) hc art values c g →
  ReleaseTargetChanged P (reconciling o) (chartName c) = false →
  ∃ out o' acts oA,
    reconcileRelease P r {| obj := o; trace := tr |}
    = (out, {| obj := o';
               trace := tr ++ EvLoadChart (artURL art) (artDigest art) :: acts |})
    ∧ continues_on P o g c values oA out o' acts
    ∧ (attempt_differs P o c values →
       InstallFailures (Status oA) = 0
       ∧ UpgradeFailures (Status oA) = 0
       ∧ Failures (Status oA) = 0)
    ∧ (¬ attempt_differs P o c values →
       InstallFailures (Status oA) = InstallFailures (Status o)
       ∧ UpgradeFailures (Status oA) = UpgradeFailures (Status o)
       ∧ Failures (Status oA) = Failures (Status o)).
Proof.
  intros Hspec Hres Hsame.
  destruct (pass_records_attempt o tr hc art values c g Hres Hsame)
    as (out & o' & acts & oA & Hrun & Hcont & _ & _ & _ & _ & _ & Hcount).
  exists out, o', acts, oA. split; [done |]. split; [done |].
  rewrite Hspec in Hcount.
  change (MustResetFailures_spec P (at_reset_check P o) c values)
    with (MustResetFailures_spec P o c values) in Hcount.
  unfold failure_counts in Hcount.
  destruct (MustResetFailures_spec P o c values) eqn:Hm.
  - injection Hcount as -> -> ->. split; [done |].
    intros Hnot. destruct Hnot. by apply MustResetFailures_spec_true.
  - injection Hcount as -> -> ->. split; [| done].
    intros Hd%MustResetFailures_spec_true. congruence.
Qed.

(** C9: in every pass that passes the dependency gate and the target check,
    the last attempted revision and digest are set to the version of the
    loaded chart and the digest of the composed values before the release
    reconciler, the only action of the pass, is run: it receives the object
    with the new pair.  The reset check ran before the update: the counters
    are reset according to the check evaluated on an object that still
    carries the pair the status had on entry; evaluated on the updated
    pair, the check the spec gives finds no difference. *)
Theorem last_attempt_recorded (o : HelmRelease) (tr : list Event)
  (hc : HelmChartObj) (art : Artifact) (values : Values) (c : Chart) (g : Getter) :
  Resolved P r (reconciling o) hc art values c g →
  ReleaseTargetChanged P (reconciling o) (chartName c) = false →
  ∃ out o' acts oA,
    reconcileRelease P r {| obj := o; trace := tr |}
    = (out, {| obj := o';
               trace := tr ++ EvLoadChart (artURL art) (artDigest art) :: acts |})
    ∧ continues_on P o g c values oA out o' acts
    ∧ (∀ e, e ∈ acts → ∃ cfg, e = EvAtomicRelease cfg oA c values)
    ∧ LastAttemptedRevision (Status oA) = chartVersion c
    ∧ LastAttemptedConfigDigest (Status oA) = DigestValues P values
    ∧ failure_counts oA
      = (if MustResetFailures P (at_reset_check P o) c values
         then (0, 0, 0) else failure_counts o)
    ∧ LastAttemptedRevision (Status (at_reset_check P o))
      = LastAttemptedRevision (Status o)
    ∧ LastAttemptedConfigDigest (Status (at_reset_check P o))
      = LastAttemptedConfigDigest (Status o)
    ∧ MustResetFailures_spec P oA c values = false.
Proof.
  intros Hres Hsame.
  destruct (pass_records_attempt o tr hc art values c g Hres Hsame)
    as (out & o' & acts & oA & Hrun & Hcont & _ & Hrev & Hdig & _ & _ & Hcount).
  exists out, o', acts, oA. repeat split; try done.
  - intros e He. unfold continues_on in Hcont.
    destruct (NewConfigFactory _ _ _ _) as [err | cfg].
    + destruct Hcont as (-> & _). by apply elem_of_nil in He.
    + destruct Hcont as (-> & _). apply list_elem_of_singleton in He. eauto.
  - by apply MustResetFailures_spec_false.
Qed.

End Pass.

(** ** Reconcile and its deferred patch *)

Section Entry.

Variable P : Packages.
Variable r : HelmReleaseReconciler.

(** C7: [Reconcile] keeps the result of the reconciliation and always runs
    the deferred patch on the object as the reconciliation left it.  When
    both return an error, it returns the aggregate of the two, the error of
    the reconciliation first; when only the patch fails, its error; when the
    patch succeeds, the error of the reconciliation, if any. *)
Theorem patch_error_aggregated (req : NamespacedName) (o : HelmRelease) :
  Get r req = inr o →
  ∃ result retErr st1 o2 perr,
    Reconcile_body P r (entry_state o) = ((result, retErr), st1)
    ∧ Patch P (obj st1) (patchOpts r result retErr) = (o2, perr)
    ∧ (Reconcile P r req).1 = (result, returned_error retErr perr)
    ∧ (∀ e pe, retErr = Some e → perr = Some pe →
         (Reconcile P r req).1.2 = Some (Aggregate [e; pe]))
    ∧ (∀ pe, retErr = None → perr = Some pe →
         (Reconcile P r req).1.2 = Some pe)
    ∧ (perr = None → (Reconcile P r req).1.2 = retErr).
Proof.
  intros Hget.
  destruct (Reconcile_body P r (entry_state o)) as [[result retErr] st1] eqn:Hbody.
  destruct (Patch P (obj st1) (patchOpts r result retErr)) as [o2 perr] eqn:Hpatch.
  exists result, retErr, st1, o2, perr.
  assert ((Reconcile P r req).1 = (result, returned_error retErr perr)) as Hrec.
  { unfold Reconcile. rewrite Hget. fold (entry_state o). rewrite Hbody.
    unfold Reconcile_deferred. unfold_body. cbn [obj trace]. rewrite Hpatch.
    cbn [obj trace fst]. by destruct perr, retErr. }
  repeat split; try done.
  - intros e pe -> ->. by rewrite Hrec.
  - intros pe -> ->. by rewrite Hrec.
  - intros ->. by rewrite Hrec.
Qed.

(** C5, as amended: for a release that is suspended, carries the finalizer
    and is not under deletion, the body of [Reconcile] returns the zero
    result and no error, leaves the object as fetched, its whole status
    included, and makes no call.  The deferred patch is then run on that
    unchanged object, with the option that records the observed generation;
    [Reconcile] returns the zero result and the error of that patch, which
    is nil when the patch succeeds. *)
Theorem suspended_release_untouched (req : NamespacedName) (o : HelmRelease) :
  Get r req = inr o →
  DeletionTimestamp_IsZero o = true →
  v2c.HelmReleaseFinalizer ∈ Finalizers o →
  Suspend (Spec o) = true →
  Reconcile_body P r (entry_state o) = ((Result_zero, None), entry_state o)
  ∧ Reconcile P r req
    = ((Result_zero, (Patch P o (suspended_patchOpts r)).2),
       Some {| obj := (Patch P o (suspended_patchOpts r)).1;
               trace := [EvRecordSuspend true;
                         EvPatch o (suspended_patchOpts r);
                         EvRecordReadiness (Patch P o (suspended_patchOpts r)).1;
                         EvRecordDuration (Patch P o (suspended_patchOpts r)).1] |})
  ∧ (snd (Patch P o (suspended_patchOpts r)) = None →
     (Reconcile P r req).1 = (Result_zero, None)).
Proof.
  intros Hget Hdel Hfin Hsusp.
  assert (Reconcile_body P r (entry_state o)
          = ((Result_zero, None), entry_state o)) as Hbody.
  { unfold Reconcile_body, entry_state. unfold_body. cbn [obj trace].
    rewrite Hdel. cbn [negb].
    unfold controllerutil.ContainsFinalizer.
    rewrite (bool_decide_eq_true_2 _ Hfin). cbn [negb].
    by rewrite Hsusp. }
  assert (Reconcile P r req
    = ((Result_zero, (Patch P o (suspended_patchOpts r)).2),
       Some {| obj := (Patch P o (suspended_patchOpts r)).1;
               trace := [EvRecordSuspend true;
                         EvPatch o (suspended_patchOpts r);
                         EvRecordReadiness (Patch P o (suspended_patchOpts r)).1;
                         EvRecordDuration (Patch P o (suspended_patchOpts r)).1] |}))
    as Hrec.
  { unfold Reconcile. rewrite Hget. fold (entry_state o). rewrite Hbody.
    unfold Reconcile_deferred, entry_state. unfold_body. cbn [obj trace].
    change (patchOpts r Result_zero None) with (suspended_patchOpts r).
    rewrite Hsusp.
    by destruct (Patch P o (suspended_patchOpts r)) as [o2 [pe |]]. }
  split; [done |]. split; [done |].
  intros Hok. by rewrite Hrec, Hok.
Qed.

(** ** The chart change request mapper *)

Lemma HasRevision_true a i :
  HasRevision P a (LastAttemptedRevision (Status i)) = true ↔ revision_matches P a i.
Proof. unfold HasRevision, revision_matches. apply String.eqb_eq. Qed.

Lemma requests_from_filter a items :
  requests_from P a items
  = ObjectKeyFromObject
      <$> List.filter
            (λ i, negb (HasRevision P a (LastAttemptedRevision (Status i)))) items.
Proof.
  induction items as [| i items IH]; [done |].
  cbn [requests_from List.filter].
  destruct (HasRevision P a (LastAttemptedRevision (Status i)));
    cbn [negb fmap list_fmap]; by rewrite IH.
Qed.

(** C10, as amended: for a chart without artifact the mapper makes no
    request.  When the list of the releases indexed under the chart cannot
    be read, it makes no request either, whatever the releases are.  For a
    chart with an artifact whose list is read, it makes, in the order of
    the list, one request for each listed release whose last attempted
    revision does not match the revision of the artifact, and no other
    request; a release whose last attempted revision is the revision of the
    artifact matches, so none is made for it. *)
Theorem chart_change_requests (hc : HelmChartObj) :
  (hcArtifact hc = None →
   requestsForHelmChartChange P r (HelmChartObject hc) = [])
  ∧ (∀ err,
       ListBySource r (NamespacedName_String (ObjectKeyFromChart hc)) = inl err →
       requestsForHelmChartChange P r (HelmChartObject hc) = [])
  ∧ (∀ a items,
       hcArtifact hc = Some a →
       ListBySource r (NamespacedName_String (ObjectKeyFromChart hc)) = inr items →
       requestsForHelmChartChange P r (HelmChartObject hc)
       = ObjectKeyFromObject
           <$> List.filter
                 (λ i, negb (HasRevision P a (LastAttemptedRevision (Status i))))
                 items
       ∧ (∀ k, k ∈ requestsForHelmChartChange P r (HelmChartObject hc)
               ↔ ∃ i, i ∈ items ∧ ¬ revision_matches P a i
                      ∧ k = ObjectKeyFromObject i)
       ∧ (∀ i, LastAttemptedRevision (Status i) = artRevision a →
               revision_matches P a i
               ∧ requests_from P a [i] = [])).
Proof.
  split; [| split].
  - intros Hnone. cbn. by rewrite Hnone.
  - intros err Herr. cbn. rewrite Herr. by destruct (hcArtifact hc).
  - intros a items Hart Hlist.
    assert (requestsForHelmChartChange P r (HelmChartObject hc)
            = requests_from P a items) as ->.
    { cbn. by rewrite Hart, Hlist. }
    split; [apply requests_from_filter |]. split.
    + intros k. rewrite requests_from_filter, list_elem_of_fmap.
      split.
      * intros (i & -> & Hi). apply list_elem_of_In, filter_In in Hi as [Hi Hrev].
        exists i. split; [by apply list_elem_of_In |]. split; [| done].
        rewrite <- HasRevision_true. by destruct (HasRevision _ _ _).
      * intros (i & Hi & Hrev & ->). exists i. split; [done |].
        apply list_elem_of_In, filter_In. split; [by apply list_elem_of_In |].
        rewrite <- HasRevision_true in Hrev. by destruct (HasRevision _ _ _).
    + intros i Hrev.
      assert (revision_matches P a i) as Hm by (unfold revision_matches; by rewrite Hrev).
      split; [done |]. cbn. by rewrite (proj2 (HasRevision_true a i) Hm).
Qed.

(** X4: [Reconcile] adds the finalizer first: for a release that is not
    under deletion and does not carry the finalizer, the body adds it, makes
    no call and asks for an immediate requeue; the deferred patch does not
    record the observed generation. *)
Theorem finalizer_added_first (o : HelmRelease) :
  DeletionTimestamp_IsZero o = true →
  v2c.HelmReleaseFinalizer ∉ Finalizers o →
  Reconcile_body P r (entry_state o)
  = (({| Requeue := true; RequeueAfter := 0 |}, None),
     {| obj := set_Finalizers (Finalizers o ++ [v2c.HelmReleaseFinalizer]) o;
        trace := trace (entry_state o) |})
  ∧ WithStatusObservedGeneration
    ∉ patchOpts r {| Requeue := true; RequeueAfter := 0 |} None.
Proof.
  intros Hdel Hfin. split.
  - unfold Reconcile_body, entry_state. unfold_body. cbn [obj trace].
    rewrite Hdel. cbn [negb].
    unfold controllerutil.AddFinalizer, controllerutil.ContainsFinalizer.
    rewrite (bool_decide_eq_false_2 _ Hfin). cbn [negb obj trace].
    by rewrite (bool_decide_eq_false_2 _ Hfin).
  - unfold patchOpts. cbn.
    rewrite !elem_of_cons, elem_of_nil. by intros [? | [? | []]].
Qed.

(** X5: when the object cannot be fetched, [Reconcile] returns the zero
    result without patching anything; the error is dropped when it says
    that the object is not found, and returned otherwise. *)
Theorem reconcile_object_missing (req : NamespacedName) (err : Error) :
  Get r req = inl err →
  Reconcile P r req
  = ((Result_zero, if apierrors.IsNotFound err then None else Some err), None).
Proof. intros Hget. unfold Reconcile. by rewrite Hget. Qed.

End Entry.

(** * The theorems on the sample cluster *)

Lemma sample_resolved (access uninstall patch : option Error) (o : HelmRelease) :
  access = None →
  DependsOn (Spec o) = [] →
  SpecKubeConfig (Spec o) = None →
  Resolved (Sample.packages access uninstall patch) Sample.reconciler
    (reconciling o) Sample.chartObject Sample.artifact
    (SpecValues (Spec o)) Sample.chart
    {| gConfig := Sample.clusterConfig;
       gNamespace := Sample.releaseNamespace o;
       gImpersonateName := ServiceAccountName (Spec o);
       gImpersonateNamespace := Namespace o;
       gPersistent := true |}.
Proof.
  intros -> Hdeps Hkube. split; try reflexivity.
  - unfold checkDependencies. cbn. by rewrite Hdeps.
  - unfold buildRESTClientGetter. cbn. by rewrite Hkube.
Defined.

(** Witness of C3: apps/web waits for apps/db, which is not ready. *)
Lemma dependency_gate_requeue_witness :
  ¬ Forall (dependency_ready Sample.reconciler web_after_db)
      (DependsOn (Spec web_after_db))
  ∧ (reconcileRelease (Sample.packages None None None) Sample.reconciler
       {| obj := web_after_db; trace := [] |}).1
    = ({| Requeue := false; RequeueAfter := 30000000000 |}, None).
Proof.
  assert (¬ Forall (dependency_ready Sample.reconciler web_after_db)
            (DependsOn (Spec web_after_db))) as Hnot.
  { rewrite <- checkDependencies_from_None. vm_compute. discriminate. }
  split; [exact Hnot |].
  destruct (dependency_gate_requeue (Sample.packages None None None)
              Sample.reconciler web_after_db [] Hnot)
    as (err & msg & _ & _ & ->).
  reflexivity.
Defined.

(** Witness of C6: the access check denies the chart of apps/web. *)
Lemma access_denied_stalls_witness :
  checkDependencies Sample.reconciler Sample.web = None
  ∧ getHelmChart (Sample.packages (Some Sample.denied) None None)
      Sample.reconciler (reconciling Sample.web) = inl Sample.denied
  ∧ acl.IsAccessDenied Sample.denied = true
  ∧ (reconcileRelease (Sample.packages (Some Sample.denied) None None)
       Sample.reconciler {| obj := Sample.web; trace := [] |}).1
    = (Result_zero, Some (Terminal Sample.denied)).
Proof.
  split; [reflexivity |]. split; [reflexivity |]. split; [reflexivity |].
  destruct (access_denied_stalls (Sample.packages (Some Sample.denied) None None)
              Sample.reconciler Sample.web [] Sample.denied
              eq_refl eq_refl eq_refl)
    as (o' & msg & -> & _).
  reflexivity.
Defined.

(** Counterexample to C2: the target of apps/web changed and the uninstall
    of the old target times out.  The pass returns that error with the zero
    result: no immediate requeue is requested, and the history and the
    storage namespace are not cleared. *)
Lemma target_change_uninstall_failure :
  let P := Sample.packages None (Some Sample.timeout) None in
  let run := reconcileRelease P Sample.reconciler {| obj := web_moved; trace := [] |} in
  ReleaseTargetChanged P (reconciling web_moved) (chartName Sample.chart) = true
  ∧ run.1 = (Result_zero, Some Sample.timeout)
  ∧ run.1 ≠ ({| Requeue := true; RequeueAfter := 0 |}, None)
  ∧ History (Status (obj run.2)) = [Sample.snapshot]
  ∧ StorageNamespace (Status (obj run.2)) = "apps"
  ∧ length (List.filter is_uninstall (trace run.2)) = 1%nat.
Proof. vm_compute. by repeat split. Qed.

(** Witness of C2 as amended: the same change of target, the uninstall
    succeeding. *)
Lemma target_change_uninstalls_witness :
  let P := Sample.packages None None None in
  let run := reconcileRelease P Sample.reconciler {| obj := web_moved; trace := [] |} in
  ReleaseTargetChanged P (reconciling web_moved) (chartName Sample.chart) = true
  ∧ run.1 = ({| Requeue := true; RequeueAfter := 0 |}, None)
  ∧ History (Status (obj run.2)) = []
  ∧ StorageNamespace (Status (obj run.2)) = "".
Proof.
  intros P run. split; [reflexivity |].
  destruct (target_change_uninstalls P Sample.reconciler web_moved []
              _ _ _ _ _
              (sample_resolved None None None web_moved eq_refl eq_refl eq_refl)
              eq_refl)
    as (out & o' & acts & o2 & uerr & Hrun & _ & _ & Hun & Hout).
  cbn in Hun. destruct Hun as [_ [= -> ->]]. cbn in Hout.
  destruct Hout as (-> & Hh & Hs & _).
  subst run. rewrite Hrun. by repeat split.
Defined.

(** Witness of C1: apps/web, last attempted at 1.0.0 with failure counters
    1, 2 and 3, is reconciled with the chart at 1.1.0. *)
Lemma failure_counters_reset_witness :
  let P := Sample.packages None None None in
  resets_as_specified P
  ∧ ReleaseTargetChanged P (reconciling Sample.web) (chartName Sample.chart) = false
  ∧ attempt_differs P Sample.web Sample.chart (SpecValues (Spec Sample.web))
  ∧ failure_counts Sample.web = (1, 2, 3)
  ∧ ∃ cfg oA,
      EvAtomicRelease cfg oA Sample.chart (SpecValues (Spec Sample.web))
      ∈ trace (reconcileRelease P Sample.reconciler
                 {| obj := Sample.web; trace := [] |}).2
      ∧ failure_counts oA = (0, 0, 0).
Proof.
  intros P.
  assert (attempt_differs P Sample.web Sample.chart (SpecValues (Spec Sample.web)))
    as Hdiff by (by left).
  split; [by intros ? ? ? |].
  split; [reflexivity |]. split; [exact Hdiff |]. split; [reflexivity |].
  destruct (failure_counters_reset P Sample.reconciler Sample.web []
              _ _ _ _ _ (λ _ _ _, eq_refl)
              (sample_resolved None None None Sample.web eq_refl eq_refl eq_refl)
              eq_refl)
    as (out & o' & acts & oA & Hrun & Hcont & Hzero & _).
  unfold continues_on in Hcont. cbn in Hcont. destruct Hcont as [-> _].
  eexists _, oA. rewrite Hrun. cbn [snd trace app]. split.
  - apply elem_of_cons. right. apply elem_of_cons. by left.
  - destruct (Hzero Hdiff) as (Hi & Hu & Hf).
    unfold failure_counts. by rewrite Hi, Hu, Hf.
Defined.

(** Witness of C9: the same pass hands the release reconciler an object
    that carries the new pair. *)
Lemma last_attempt_recorded_witness :
  let P := Sample.packages None None None in
  ReleaseTargetChanged P (reconciling Sample.web) (chartName Sample.chart) = false
  ∧ ∃ cfg oA,
      trace (reconcileRelease P Sample.reconciler
               {| obj := Sample.web; trace := [] |}).2
      = [EvLoadChart (artURL Sample.artifact) (artDigest Sample.artifact);
         EvAtomicRelease cfg oA Sample.chart (SpecValues (Spec Sample.web))]
      ∧ LastAttemptedRevision (Status oA) = "1.1.0"
      ∧ LastAttemptedConfigDigest (Status oA) = "sha256:replicas".
Proof.
  intros P. split; [reflexivity |].
  destruct (last_attempt_recorded P Sample.reconciler Sample.web []
              _ _ _ _ _
              (sample_resolved None None None Sample.web eq_refl eq_refl eq_refl)
              eq_refl)
    as (out & o' & acts & oA & Hrun & Hcont & _ & Hrev & Hdig & _).
  unfold continues_on in Hcont. cbn in Hcont. destruct Hcont as [-> _].
  eexists _, oA. rewrite Hrun. by repeat split.
Defined.

(** Witness of C7: the uninstall of the old target of apps/web times out
    and the deferred patch fails as well; both errors are returned. *)
Lemma patch_error_aggregated_witness :
  let P := Sample.packages None (Some Sample.timeout) (Some Sample.unavailable) in
  let r := Sample.reconciler_with web_moved in
  Get r web_key = inr web_moved
  ∧ (Reconcile P r web_key).1
    = (Result_zero, Some (Aggregate [Sample.timeout; Sample.unavailable])).
Proof.
  intros P r. split; [reflexivity |].
  destruct (patch_error_aggregated P r web_key web_moved eq_refl)
    as (result & retErr & st1 & o2 & perr & Hbody & Hpatch & -> & _).
  vm_compute in Hbody. injection Hbody as <- <- <-.
  cbn in Hpatch. injection Hpatch as <- <-.
  reflexivity.
Defined.

(** Counterexample to C5: apps/web is suspended, carries the finalizer and
    is not under deletion; the deferred patch fails, and [Reconcile]
    returns the error of the patch. *)
Lemma suspended_release_patch_failure :
  let P := Sample.packages None None (Some Sample.unavailable) in
  let r := Sample.reconciler_with web_suspended in
  Get r web_key = inr web_suspended
  ∧ Suspend (Spec web_suspended) = true
  ∧ v2c.HelmReleaseFinalizer ∈ Finalizers web_suspended
  ∧ DeletionTimestamp_IsZero web_suspended = true
  ∧ (Reconcile P r web_key).1 = (Result_zero, Some Sample.unavailable)
  ∧ (Reconcile P r web_key).1.2 ≠ None.
Proof.
  intros P r. repeat split; try reflexivity; try done.
  apply elem_of_cons. by left.
Qed.

(** Witness of C5 as amended: the same suspended release, the patch
    succeeding. *)
Lemma suspended_release_untouched_witness :
  let P := Sample.packages None None None in
  let r := Sample.reconciler_with web_suspended in
  Get r web_key = inr web_suspended
  ∧ DeletionTimestamp_IsZero web_suspended = true
  ∧ v2c.HelmReleaseFinalizer ∈ Finalizers web_suspended
  ∧ Suspend (Spec web_suspended) = true
  ∧ (Reconcile P r web_key).1 = (Result_zero, None).
Proof.
  intros P r.
  assert (v2c.HelmReleaseFinalizer ∈ Finalizers web_suspended) as Hfin
    by (apply elem_of_cons; by left).
  split; [reflexivity |]. split; [reflexivity |]. split; [exact Hfin |].
  split; [reflexivity |].
  by apply (suspended_release_untouched P r web_key web_suspended
              eq_refl eq_refl Hfin eq_refl).
Defined.

(** Counterexample to C10: the chart of apps/web has a new artifact, and
    apps/web, indexed under the chart, last attempted another revision.
    While the index is read the mapper requests apps/web; while the list
    call fails, the release being the same, it requests nothing. *)
Lemma chart_change_list_failure :
  let P := Sample.packages None None None in
  let key := NamespacedName_String (ObjectKeyFromChart Sample.chartObject) in
  hcArtifact Sample.chartObject = Some Sample.artifact
  ∧ ListBySource Sample.reconciler key = inr [Sample.web]
  ∧ ¬ revision_matches P Sample.artifact Sample.web
  ∧ requestsForHelmChartChange P Sample.reconciler
      (HelmChartObject Sample.chartObject) = [web_key]
  ∧ Get Sample.reconciler_unlisted web_key = inr Sample.web
  ∧ ListBySource Sample.reconciler_unlisted key = inl Sample.unavailable
  ∧ requestsForHelmChartChange P Sample.reconciler_unlisted
      (HelmChartObject Sample.chartObject) = [].
Proof. intros P key. by repeat split. Qed.

(** Witness of C10 as amended: the same chart, the index being read. *)
Lemma chart_change_requests_witness :
  let P := Sample.packages None None None in
  let key := NamespacedName_String (ObjectKeyFromChart Sample.chartObject) in
  hcArtifact Sample.chartObject = Some Sample.artifact
  ∧ ListBySource Sample.reconciler key = inr [Sample.web]
  ∧ requestsForHelmChartChange P Sample.reconciler
      (HelmChartObject Sample.chartObject) = [web_key]
  ∧ (web_key ∈ requestsForHelmChartChange P Sample.reconciler
                 (HelmChartObject Sample.chartObject)
     ↔ ∃ i, i ∈ [Sample.web] ∧ ¬ revision_matches P Sample.artifact i
            ∧ web_key = ObjectKeyFromObject i).
Proof.
  intros P key. split; [reflexivity |]. split; [reflexivity |].
  destruct (chart_change_requests P Sample.reconciler Sample.chartObject)
    as (_ & _ & Hlisted).
  destruct (Hlisted Sample.artifact [Sample.web] eq_refl eq_refl)
    as (Hrequests & Hexact & _).
  split; [by rewrite Hrequests | apply Hexact].
Defined.

(** * The earlier revision *)

Section LegacyPass.

Variable P : Packages.
Variable r : HelmReleaseReconciler.
Variable NoCrossNamespaceRef : bool.
Variable Current : HelmReleaseStatus → option Snapshot.
Variable clear_Current : HelmReleaseStatus → HelmReleaseStatus.
Variable NewInClusterMemoryRESTClientGetter : HelmRelease → Error + Getter.

(** One iteration of the earlier loop decides as the current one: a
    dependency without conditions has no true Ready condition. *)
Lemma legacy_checkDependency (o : HelmRelease) (d : NamespacedObjectReference) :
  Legacy.checkDependency r o d = checkDependency r o d.
Proof.
  unfold Legacy.checkDependency, checkDependency, dependencyRef.
  destruct (Get r _) as [err | dHr]; [done |].
  destruct (negb (Generation dHr =? ObservedGeneration (Status dHr)));
    [done |]. cbn [orb].
  case_bool_decide as Hempty; [| done]. cbn [orb].
  unfold conditions.IsTrue, conditions.is_true. by rewrite Hempty, lookup_empty.
Qed.

Lemma legacy_checkDependencies_from (o : HelmRelease)
  (ds : list NamespacedObjectReference) :
  Legacy.checkDependencies_from r o ds = checkDependencies_from r o ds.
Proof.
  induction ds as [| d ds IH]; [done |].
  cbn [Legacy.checkDependencies_from checkDependencies_from].
  by rewrite IH, legacy_checkDependency.
Qed.

(** X1: the additional test of the earlier [checkDependencies], that the
    dependency has conditions at all, is implied by the test of its Ready
    condition: both revisions compute the same check. *)
Theorem legacy_checkDependencies (o : HelmRelease) :
  Legacy.checkDependencies r o = checkDependencies r o.
Proof. apply legacy_checkDependencies_from. Qed.

(** With cross-namespace references blocked, the earlier [getHelmChart]
    denies the access to a chart in another namespace. *)
Lemma legacy_getHelmChart_denied (o : HelmRelease) :
  NoCrossNamespaceRef = true →
  (StatusGetHelmChart P (Status o)).1 ≠ Namespace o →
  ∃ err, Legacy.getHelmChart P r NoCrossNamespaceRef o = inl err
         ∧ acl.IsAccessDenied err = true.
Proof.
  intros -> Hns. unfold Legacy.getHelmChart.
  destruct (StatusGetHelmChart P (Status o)) as [namespace name].
  cbn [fst] in Hns. apply String.eqb_neq in Hns. rewrite Hns.
  cbn [andb negb]. by eexists.
Qed.

(** X2: in the earlier revision a denied access to the chart ends the pass
    with the error itself and the zero result: the release is marked not Ready,
    it is not marked Stalled, the Reconciling condition stays, and for an
    error that is not terminal the deferred patch does not record the
    observed generation. *)
Theorem legacy_access_denied (o : HelmRelease) (tr : list Event) (err : Error) :
  checkDependencies r o = None →
  Legacy.getHelmChart P r NoCrossNamespaceRef (reconciling o) = inl err →
  acl.IsAccessDenied err = true →
  ∃ o',
    Legacy.reconcileRelease P r NoCrossNamespaceRef Current clear_Current
      NewInClusterMemoryRESTClientGetter {| obj := o; trace := tr |}
    = (Legacy.Returns Result_zero (Some err), {| obj := o'; trace := tr |})
    ∧ Conditions (Status o') !! meta.StalledCondition = None
    ∧ Conditions (Status o') !! meta.ReadyCondition
      = Some (conditions.FalseCondition aclv1.AccessDeniedReason
                (Sprintf0 P (errors.ErrorString err)))
    ∧ Conditions (Status o') !! meta.ReconcilingCondition
      = Some (conditions.TrueCondition meta.ProgressingReason "")
    ∧ (errors.Is_TerminalError err = false →
       WithStatusObservedGeneration ∉ patchOpts r Result_zero (Some err)).
Proof.
  intros Hdeps Hchart Hdenied. eexists. split.
  - unfold Legacy.reconcileRelease. unfold_body. cbn [obj trace].
    fold (reconciling o).
    unfold Legacy.checkDependencies.
    rewrite legacy_checkDependencies_from.
    fold (checkDependencies r (reconciling o)).
    rewrite checkDependencies_reconciling, Hdeps.
    destruct (0 <? _); cbn [obj trace]; by rewrite Hchart, Hdenied.
  - cbn.
    unfold meta.StalledCondition, meta.ReadyCondition, meta.ReconcilingCondition.
    repeat split; try by simplify_map_eq.
    intros Hterm. unfold patchOpts. rewrite Hterm. cbn.
    rewrite !elem_of_cons, elem_of_nil. by intros [? | [? | []]].
Qed.

(** X3: in the earlier revision the dependency gate reads the chart version
    through the pointer to the current release before it emits the event:
    for a release that has no current release the pass panics; otherwise it
    ends as in the current revision. *)
Theorem legacy_dependency_gate (o : HelmRelease) (tr : list Event) :
  ¬ Forall (dependency_ready r o) (DependsOn (Spec o)) →
  ∃ err msg,
    checkDependencies r o = Some err
    ∧ msg = Sprintf0 P (errors.ErrorString err)
    ∧ Legacy.reconcileRelease P r NoCrossNamespaceRef Current clear_Current
        NewInClusterMemoryRESTClientGetter {| obj := o; trace := tr |}
      = match Current (Status (reconciling o)) with
        | None => (Legacy.Panics, {| obj := reconciling o; trace := tr |})
        | Some cur =>
            (Legacy.Returns {| Requeue := false;
                               RequeueAfter := requeueDependency r |} None,
             {| obj := conditions.MarkFalse meta.ReadyCondition
                         v2c.DependencyNotReadyReason msg (reconciling o);
                trace := tr ++ [EvEventf (snapChartVersion cur) "Warning" msg] |})
        end.
Proof.
  intros Hnot.
  destruct (checkDependencies r o) as [err |] eqn:Hc.
  2: { destruct Hnot. by apply checkDependencies_from_None. }
  exists err, (Sprintf0 P (errors.ErrorString err)). split; [done |]. split; [done |].
  unfold Legacy.reconcileRelease. unfold_body. cbn [obj trace].
  fold (reconciling o).
  unfold Legacy.checkDependencies.
  rewrite legacy_checkDependencies_from.
  fold (checkDependencies r (reconciling o)).
  rewrite checkDependencies_reconciling, Hc.
  destruct (DependsOn (Spec o)) eqn:Hd;
    [by unfold checkDependencies in Hc; rewrite Hd in Hc |].
  change (DependsOn (Spec (reconciling o))) with (DependsOn (Spec o)).
  rewrite Hd. cbn [length Z.of_nat]. cbn [Z.ltb Z.compare].
  by destruct (Current (Status (reconciling o))).
Qed.

End LegacyPass.

(** * The earlier revision on the sample cluster *)

(** Witness of X2: team-a/web refers to a chart in apps while cross-namespace
    references are blocked. *)
Lemma legacy_access_denied_witness :
  let P := Sample.packages None None None in
  let run :=
    Legacy.reconcileRelease P Sample.reconciler true (λ _, None) (λ st, st)
      (λ o, inr (Sample.getter o)) {| obj := web_elsewhere; trace := [] |} in
  Legacy.getHelmChart P Sample.reconciler true (reconciling web_elsewhere)
  = inl blocked
  ∧ run.1 = Legacy.Returns Result_zero (Some blocked)
  ∧ errors.Is_TerminalError blocked = false.
Proof.
  intros P run. split; [reflexivity |].
  destruct (legacy_access_denied P Sample.reconciler true (λ _, None) (λ st, st)
              (λ o, inr (Sample.getter o)) web_elsewhere [] blocked
              eq_refl eq_refl eq_refl)
    as (o' & Hrun & _).
  subst run. rewrite Hrun. by split.
Defined.

(** Witness of X3: apps/web waits for apps/db and has no current release. *)
Lemma legacy_dependency_gate_witness :
  let P := Sample.packages None None None in
  ¬ Forall (dependency_ready Sample.reconciler web_after_db)
      (DependsOn (Spec web_after_db))
  ∧ (Legacy.reconcileRelease P Sample.reconciler true (λ _, None) (λ st, st)
       (λ o, inr (Sample.getter o)) {| obj := web_after_db; trace := [] |}).1
    = Legacy.Panics.
Proof.
  intros P.
  assert (¬ Forall (dependency_ready Sample.reconciler web_after_db)
            (DependsOn (Spec web_after_db))) as Hnot.
  { rewrite <- checkDependencies_from_None. vm_compute. discriminate. }
  split; [exact Hnot |].
  destruct (legacy_dependency_gate P Sample.reconciler true (λ _, None) (λ st, st)
              (λ o, inr (Sample.getter o)) web_after_db [] Hnot)
    as (err & msg & _ & _ & ->).
  reflexivity.
Defined.

(** Witness of X4: apps/web without the finalizer. *)
Lemma finalizer_added_first_witness :
  DeletionTimestamp_IsZero web_new = true
  ∧ (v2c.HelmReleaseFinalizer ∉ Finalizers web_new)
  ∧ (Reconcile_body (Sample.packages None None None) Sample.reconciler
       (entry_state web_new)).1
    = ({| Requeue := true; RequeueAfter := 0 |}, None).
Proof.
  assert (v2c.HelmReleaseFinalizer ∉ Finalizers web_new) as Hfin
    by apply not_elem_of_nil.
  split; [reflexivity |]. split; [exact Hfin |].
  destruct (finalizer_added_first (Sample.packages None None None)
              Sample.reconciler web_new eq_refl Hfin) as [-> _].
  reflexivity.
Defined.

(** Witness of X5: the release apps/gone does not exist. *)
Lemma reconcile_object_missing_witness :
  let req := {| nnNamespace := "apps"; nnName := "gone" |} in
  Get Sample.reconciler req
  = inl (Err KNotFound "helmreleases.helm.toolkit.fluxcd.io not found")
  ∧ Reconcile (Sample.packages None None None) Sample.reconciler req
    = ((Result_zero, None), None).
Proof.
  intros req. split; [reflexivity |].
  by rewrite (reconcile_object_missing (Sample.packages None None None)
                Sample.reconciler req _ eq_refl).
Defined.

(** * Every path of the reconciliation pass *)

(** Case analysis on every branch a body takes, innermost test first. *)
Ltac split_body :=
  repeat first
    [ progress cbn [obj trace fst snd negb]
    | match goal with
      | |- context [match ?x with _ => _ end] =>
          lazymatch x with
          | context [match _ with _ => _ end] => fail
          | _ => destruct x eqn:?
          end
      end ].

Section PassShape.

Variable P : Packages.
Variable r : HelmReleaseReconciler.

(** The calls of a pass, whatever path it takes. *)
Lemma reconcileRelease_calls (st : State) :
  ∃ new, trace (reconcileRelease P r st).2 = trace st ++ new ∧ pass_calls new.
Proof.
  unfold reconcileRelease, reconcileUninstall. unfold_body. cbn [obj trace].
  split_body.
  all: rewrite <- ?(assoc_L (++)); cbn [app].
  all: try (eexists; split; [reflexivity | constructor]).
  all: exists []; split; [by rewrite app_nil_r | constructor].
Qed.

(** X6: on every path, a pass of [reconcileRelease] adds to the calls made
    so far nothing, or the one event of the dependency gate, or the chart
    load alone, or the chart load followed by one Helm action, which is
    either the uninstall or the install or upgrade.  So a pass runs at most
    one Helm action, loads the chart at most once, and never runs an action
    without having loaded the chart. *)
Theorem pass_makes_few_calls (st : State) :
  ∃ new,
    trace (reconcileRelease P r st).2 = trace st ++ new
    ∧ pass_calls new
    ∧ (length (List.filter is_action new) ≤ 1)%nat
    ∧ (length (List.filter is_chart_load new) ≤ 1)%nat
    ∧ (List.filter is_action new ≠ [] → List.filter is_chart_load new ≠ []).
Proof.
  destruct (reconcileRelease_calls st) as (new & Htrace & Hcalls).
  exists new. split; [done |]. split; [done |].
  destruct Hcalls; cbn; repeat split; try lia; done.
Qed.

(** X7: on every path of [reconcileRelease], an error comes with the zero
    result, so that no requeue is asked for together with an error; and an
    immediate requeue is asked for only with a nil error and with the
    history and the storage namespace of the status cleared. *)
Theorem pass_result_discipline (st : State) :
  let run := reconcileRelease P r st in
  (run.1.2 ≠ None → run.1.1 = Result_zero)
  ∧ (Requeue run.1.1 = true →
     run.1 = ({| Requeue := true; RequeueAfter := 0 |}, None)
     ∧ History (Status (obj run.2)) = []
     ∧ StorageNamespace (Status (obj run.2)) = "").
Proof.
  unfold reconcileRelease, reconcileUninstall. unfold_body. cbn [obj trace].
  split_body.
  all: split; [by intros | by intros].
Qed.

(** X8: a pass of [reconcileRelease] that ran no Helm action has changed
    nothing but the status: the metadata and the spec of the object are
    those it started with, and within the status the observed generation
    and the name of the chart object are untouched as well. *)
Theorem pass_writes_status_only (st : State) :
  ∃ new,
    trace (reconcileRelease P r st).2 = trace st ++ new
    ∧ (List.filter is_action new = [] →
       same_identity (obj st) (obj (reconcileRelease P r st).2)
       ∧ ObservedGeneration (Status (obj (reconcileRelease P r st).2))
         = ObservedGeneration (Status (obj st))
       ∧ HelmChart (Status (obj (reconcileRelease P r st).2))
         = HelmChart (Status (obj st))).
Proof.
  unfold reconcileRelease, reconcileUninstall. unfold_body. cbn [obj trace].
  split_body.
  all: rewrite <- ?(assoc_L (++)); cbn [app].
  all: try (eexists; split; [reflexivity |]; cbn; try done; by repeat split).
  all: exists []; split; [by rewrite app_nil_r |]; by repeat split.
Qed.

End PassShape.

(** ** The chart object *)

Section ChartGate.

Variable P : Packages.
Variable r : HelmReleaseReconciler.

(** Runs a pass whose dependencies are ready up to the chart object. *)
Ltac to_chart o Hdeps :=
  unfold reconcileRelease; unfold_body; cbn [obj trace];
  fold (reconciling o); rewrite ?checkDependencies_reconciling, Hdeps;
  rewrite if_same; cbn [obj trace].

(** X9: when the chart object cannot be fetched for another reason than a
    denied access, the pass marks the release not Ready with the reason
    ArtifactFailed and returns the error as it is with the zero result: the
    release stays Reconciling, is not Stalled, no call is made, and unless
    the error is terminal the deferred patch does not record the observed
    generation, so the controller retries. *)
Theorem chart_fetch_error_retried (o : HelmRelease) (tr : list Event) (err : Error) :
  checkDependencies r o = None →
  getHelmChart P r (reconciling o) = inl err →
  acl.IsAccessDenied err = false →
  ∃ o' msg,
    reconcileRelease P r {| obj := o; trace := tr |}
    = ((Result_zero, Some err), {| obj := o'; trace := tr |})
    ∧ msg = Sprintf0 P ("could not get HelmChart object: "
                          +:+ errors.ErrorString err)
    ∧ Conditions (Status o') !! meta.ReadyCondition
      = Some (conditions.FalseCondition v2c.ArtifactFailedReason msg)
    ∧ Conditions (Status o') !! meta.ReconcilingCondition
      = Some (conditions.TrueCondition meta.ProgressingReason "")
    ∧ Conditions (Status o') !! meta.StalledCondition = None
    ∧ (errors.Is_TerminalError err = false →
       WithStatusObservedGeneration ∉ patchOpts r Result_zero (Some err)).
Proof.
  intros Hdeps Hchart Hdenied.
  eexists _, _. split.
  - to_chart o Hdeps. by rewrite Hchart, Hdenied.
  - split; [done |]. cbn.
    unfold meta.StalledCondition, meta.ReadyCondition, meta.ReconcilingCondition.
    repeat split; try done; try by simplify_map_eq.
    intros Hterm. unfold patchOpts. rewrite Hterm. cbn [app].
    rewrite !elem_of_cons, elem_of_nil. by intros [|[|]].
Qed.

(** X10: when the chart object is fetched but its generation is not
    observed, or it is not Ready, or it has no artifact, the pass marks the
    release not Ready with the reason HelmChartNotReady, naming the chart,
    and returns a nil error with a requeue after the interval of the chart:
    no call is made, so nothing is loaded and no action runs. *)
Theorem chart_not_ready_waits (o : HelmRelease) (tr : list Event) (hc : HelmChartObj) :
  checkDependencies r o = None →
  getHelmChart P r (reconciling o) = inr hc →
  hcGeneration hc ≠ hcObservedGeneration hc
  ∨ conditions.IsReady hc = false
  ∨ hcArtifact hc = None →
  reconcileRelease P r {| obj := o; trace := tr |}
  = (({| Requeue := false; RequeueAfter := ChartGetRequeueAfter P hc |}, None),
     {| obj := conditions.MarkFalse meta.ReadyCondition "HelmChartNotReady"
                 (Sprintf0 P ("HelmChart '" +:+ hcNamespace hc +:+ "/"
                                +:+ hcName hc +:+ "' is not ready"))
                 (reconciling o);
        trace := tr |}).
Proof.
  intros Hdeps Hchart Hnot.
  to_chart o Hdeps. rewrite Hchart. cbn [obj trace].
  destruct (negb (hcGeneration hc =? hcObservedGeneration hc)
            || negb (conditions.IsReady hc)) eqn:Hg; [done |].
  apply orb_false_elim in Hg as [Hgen Hready].
  apply negb_false_iff in Hgen, Hready. apply Z.eqb_eq in Hgen.
  destruct Hnot as [Hnot | [Hnot | Hnot]]; [done | congruence |].
  by rewrite Hnot.
Qed.

End ChartGate.

(** * Deletion *)

(** ** The name of the impersonated service account *)

Lemma after_last_colon_None (s : string) :
  after_last_colon s = None ↔ has_colon s = false.
Proof.
  induction s as [| c s IH]; [done |].
  cbn [after_last_colon has_colon].
  destruct (after_last_colon s) as [t |].
  - split; [done |]. intros [_ Hs]%orb_false_elim. by apply IH in Hs.
  - destruct IH as [IH _]. rewrite (IH eq_refl), orb_false_r.
    by destruct (Ascii.eqb c ":").
Qed.

Lemma after_last_colon_app (p t : string) :
  has_colon t = false → after_last_colon (p +:+ ":" +:+ t) = Some t.
Proof.
  intros Ht. induction p as [| c p IH].
  - change (after_last_colon (String ":" t) = Some t).
    cbn [after_last_colon].
    by destruct (after_last_colon_None t) as [_ ->].
  - change (after_last_colon (String c (p +:+ ":" +:+ t)) = Some t).
    cbn [after_last_colon]. by rewrite IH.
Qed.

Lemma after_last_colon_Some (s t : string) :
  after_last_colon s = Some t →
  has_colon t = false ∧ ∃ p, s = p +:+ ":" +:+ t.
Proof.
  revert t. induction s as [| c s IH]; [done |].
  intros t. cbn [after_last_colon].
  destruct (after_last_colon s) as [t' |] eqn:Hs.
  - intros [= ->]. destruct (IH t eq_refl) as [Ht [p ->]].
    split; [done |]. by exists (String c p).
  - destruct (Ascii.eqb_spec c ":") as [-> |]; [| done].
    intros [= ->]. split; [by apply after_last_colon_None |].
    by exists "".
Qed.

(** X11: the cut of the user name at its last colon, as
    [reconcileReleaseDeletion] makes it with [strings.LastIndex]: there is
    no cut exactly when the name has no colon, and the cut yields [t]
    exactly when [t] has no colon and the name is some prefix, a colon and
    [t].  The name looked up for system:serviceaccount:ns:name is thus
    name, and never contains a colon. *)
Theorem after_last_colon_spec (s : string) :
  (after_last_colon s = None ↔ has_colon s = false)
  ∧ ∀ t, after_last_colon s = Some t
         ↔ has_colon t = false ∧ ∃ p, s = p +:+ ":" +:+ t.
Proof.
  split; [apply after_last_colon_None |].
  intros t. split; [apply after_last_colon_Some |].
  intros [Ht [p ->]]. by apply after_last_colon_app.
Qed.

(** ** reconcileDelete *)

Section Deletion.

Variable P : Packages.
Variable r : HelmReleaseReconciler.

Ltac unfold_delete :=
  unfold reconcileDelete, reconcileReleaseDeletion, reconcileChartTemplate,
    reconcileUninstall;
  unfold_body; cbn [obj trace].

(** Closes a branch from the tests that lead to it. *)
Ltac settle_branch :=
  first [ done
        | let H := fresh in intros H; rewrite H in *; done
        | rewrite ?negb_true_iff, ?negb_false_iff in *; congruence ].

(** The calls of a deletion, whatever path it takes. *)
Lemma reconcileDelete_calls (st : State) :
  ∃ new, trace (reconcileDelete P r st).2 = trace st ++ new ∧ delete_calls new.
Proof.
  unfold_delete. split_body.
  all: rewrite <- ?(assoc_L (++)); cbn [app].
  all: try (eexists; split; [reflexivity | constructor]).
  all: exists []; split; [by rewrite app_nil_r | constructor].
Qed.

(** X12: on every path, [reconcileDelete] adds to the calls made so far at
    most one uninstall followed by at most one reconciliation of the chart
    template: it loads no chart and runs no install or upgrade.  An error
    comes with the zero result.  For a suspended release it makes no call at
    all; for an object whose deletion timestamp is not set it makes no
    call, leaves the object as it is and does not report completion; and it
    runs no uninstall for a release without storage namespace, one that
    was never installed. *)
Theorem deletion_makes_few_calls (st : State) :
  let run := reconcileDelete P r st in
  ∃ new,
    trace run.2 = trace st ++ new
    ∧ delete_calls new
    ∧ (run.1.2 ≠ None → run.1.1 = Result_zero)
    ∧ (Suspend (Spec (obj st)) = true → new = [])
    ∧ (DeletionTimestamp_IsZero (obj st) = true →
       new = [] ∧ obj run.2 = obj st ∧ run.1 ≠ (Result_zero, None))
    ∧ (StorageNamespace (Status (obj st)) = "" → List.filter is_uninstall new = []).
Proof.
  unfold_delete. split_body.
  all: rewrite <- ?(assoc_L (++)); cbn [app].
  all: try (eexists; split; [reflexivity |]; split; [constructor |];
            repeat split; settle_branch).
  all: exists []; split; [by rewrite app_nil_r |]; split; [constructor |];
        repeat split; settle_branch.
Qed.

Lemma RemoveFinalizer_absent (f : string) (o : HelmRelease) :
  f ∉ Finalizers (controllerutil.RemoveFinalizer f o).
Proof.
  cbn. rewrite list_elem_of_In, filter_In. intros [_ Hf].
  by rewrite String.eqb_refl in Hf.
Qed.

Lemma IsZero_kept (o o' : HelmRelease) :
  DeletionTimestamp o' = DeletionTimestamp o →
  DeletionTimestamp_IsZero o' = DeletionTimestamp_IsZero o.
Proof. unfold DeletionTimestamp_IsZero. by intros ->. Qed.

(** What a collaborator that keeps the metadata has left of it. *)
Ltac kept_metadata :=
  repeat match goal with
    | Hk : keeps_metadata ?f, Heq : ?f ?x = (_, _) |- _ =>
        let H1 := fresh in let H2 := fresh in
        destruct (Hk x) as [H1 H2]; rewrite Heq in H1, H2;
        cbn in H1, H2; clear Heq
    | Hk : ∀ cfg, keeps_metadata _,
      Heq : Uninstall_Reconcile _ ?cfg ?x = (_, _) |- _ =>
        let H1 := fresh in let H2 := fresh in
        destruct (Hk cfg x) as [H1 H2]; rewrite Heq in H1, H2;
        cbn in H1, H2; clear Heq
    end.

(** X13: for an object under deletion, and with an uninstall and a chart
    template reconciler that leave the deletion timestamp and the
    finalizers alone, [reconcileDelete] never asks for an immediate
    requeue, and it removes the finalizer exactly on the paths that end
    without error: a nil error comes with the zero result and the finalizer
    gone, an error with the finalizers as they were. *)
Theorem deletion_finalizer (st : State) :
  (∀ cfg, keeps_metadata (Uninstall_Reconcile P cfg)) →
  keeps_metadata (HelmChartTemplate_Reconcile P) →
  DeletionTimestamp_IsZero (obj st) = false →
  let run := reconcileDelete P r st in
  Requeue run.1.1 = false
  ∧ (run.1.2 = None →
     run.1.1 = Result_zero
     ∧ v2c.HelmReleaseFinalizer ∉ Finalizers (obj run.2))
  ∧ (run.1.2 ≠ None → Finalizers (obj run.2) = Finalizers (obj st)).
Proof.
  intros Hu Ht Hz. unfold_delete. split_body.
  all: kept_metadata.
  all: repeat match goal with
         | H : DeletionTimestamp _ = _ |- _ => apply IsZero_kept in H
         end.
  all: try (exfalso; rewrite ?negb_true_iff, ?negb_false_iff in *; congruence).
  all: repeat split; intros; try done; try congruence.
  all: try apply RemoveFinalizer_absent.
Qed.

(** Runs [reconcileReleaseDeletion] on an installed release under deletion
    up to the client getter. *)
Ltac to_getter o Hz Hs :=
  unfold reconcileReleaseDeletion; unfold_body; cbn [obj trace];
  rewrite Hz; cbn [obj trace];
  rewrite (proj2 (String.eqb_neq _ _) Hs); cbn [obj trace].

(** X14: when the secret with the kubeconfig of a release under deletion
    cannot be read, the error of [buildRESTClientGetter] wraps the error of
    the read and is a not-found error exactly when that one is.  For a
    missing secret [reconcileReleaseDeletion] then skips the uninstall: it
    returns nil, makes no call and leaves the object, its history and
    storage namespace included, as it is.  For any other error it marks the
    release not Ready with the reason UninstallFailed and returns the
    error. *)
Theorem deletion_without_kubeconfig_secret (o : HelmRelease) (tr : list Event)
  (kc : KubeConfig) (err : Error) :
  DeletionTimestamp_IsZero o = false →
  StorageNamespace (Status o) ≠ "" →
  SpecKubeConfig (Spec o) = Some kc →
  GetSecret r {| nnNamespace := Namespace o; nnName := SecretRefName kc |}
  = inl err →
  ∃ werr,
    buildRESTClientGetter P r o = inl werr
    ∧ apierrors.IsNotFound werr = apierrors.IsNotFound err
    ∧ reconcileReleaseDeletion P r {| obj := o; trace := tr |}
      = if apierrors.IsNotFound err
        then (None, {| obj := o; trace := tr |})
        else (Some werr,
              {| obj := conditions.MarkFalse meta.ReadyCondition
                          v2c.UninstallFailedReason
                          ("failed to build REST client getter to uninstall release: "
                             +:+ errors.ErrorString werr) o;
                 trace := tr |}).
Proof.
  intros Hz Hs Hk Hsecret.
  assert (Hb : buildRESTClientGetter P r o
               = inl (Wrap ("could not get KubeConfig secret '"
                              +:+ NamespacedName_String
                                    {| nnNamespace := Namespace o;
                                       nnName := SecretRefName kc |} +:+ "': ") err)).
  { unfold buildRESTClientGetter. by rewrite Hk, Hsecret. }
  eexists. split; [exact Hb |]. split; [done |].
  to_getter o Hz Hs. rewrite Hb.
  change (apierrors.IsNotFound (Wrap _ err)) with (apierrors.IsNotFound err).
  by destruct (apierrors.IsNotFound err).
Qed.

Lemma user_name_not_empty (prefix account : string) :
  (prefix +:+ ":" +:+ account =? "")%string = false.
Proof. by destruct prefix. Qed.

(** X15: for a release under deletion without kubeconfig whose getter
    impersonates the user prefix:account, [reconcileReleaseDeletion] looks
    the service account up under the name account, in the namespace of the
    release.  When that read fails with a not-found error the uninstall is
    skipped: nil is returned, no call is made and the object stays as it
    is.  When it fails with another error the release is marked not Ready
    with the reason UninstallFailed, the message naming the account, and
    the error is returned. *)
Theorem deletion_without_service_account (o : HelmRelease) (tr : list Event)
  (g : Getter) (cfg : RestConfig) (prefix account : string) (err : Error) :
  DeletionTimestamp_IsZero o = false →
  StorageNamespace (Status o) ≠ "" →
  SpecKubeConfig (Spec o) = None →
  buildRESTClientGetter P r o = inr g →
  ToRESTConfig P g = inr cfg →
  ImpersonateUserName cfg = prefix +:+ ":" +:+ account →
  has_colon account = false →
  GetServiceAccount r {| nnNamespace := Namespace o; nnName := account |}
  = Some err →
  reconcileReleaseDeletion P r {| obj := o; trace := tr |}
  = if apierrors.IsNotFound err
    then (None, {| obj := o; trace := tr |})
    else (Some err,
          {| obj := conditions.MarkFalse meta.ReadyCondition
                      v2c.UninstallFailedReason
                      ("failed to confirm ServiceAccount '" +:+ account
                         +:+ "' can be used to uninstall release: "
                         +:+ errors.ErrorString err) o;
             trace := tr |}).
Proof.
  intros Hz Hs Hk Hb Hcfg Huser Hcolon Hsa.
  to_getter o Hz Hs. rewrite Hb. cbn [obj trace].
  rewrite Hk, Hcfg. cbn [obj trace].
  rewrite Huser, user_name_not_empty, (after_last_colon_app _ _ Hcolon).
  cbn [negb]. rewrite Hsa. unfold client.IgnoreNotFound.
  by destruct (apierrors.IsNotFound err).
Qed.

(** X16: for an installed release under deletion whose getter is built and
    whose service account, if one is impersonated, is found,
    [reconcileReleaseDeletion] runs the uninstall once, on the object and
    the storage namespace as recorded, unless the action configuration
    cannot be built.  When the uninstall returns no error, or reports that
    there is no current release, the history and the storage namespace are
    cleared and nil is returned; any other error is returned and nothing is
    cleared. *)
Theorem deletion_uninstalls_then_truncates (o : HelmRelease) (tr : list Event)
  (g : Getter) :
  DeletionTimestamp_IsZero o = false →
  StorageNamespace (Status o) ≠ "" →
  buildRESTClientGetter P r o = inr g →
  account_confirmed P r o g →
  ∃ o2 uerr acts,
    match NewConfigFactory P g (DefaultStorageDriver P)
            (StorageNamespace (Status o)) with
    | inl err =>
        acts = [] ∧ uerr = Some err
        ∧ o2 = conditions.MarkFalse meta.ReadyCondition "ConfigFactoryErr"
                 (Sprintf0 P (errors.ErrorString err)) o
    | inr cfg =>
        acts = [EvUninstall cfg o] ∧ (o2, uerr) = Uninstall_Reconcile P cfg o
    end
    ∧ reconcileReleaseDeletion P r {| obj := o; trace := tr |}
      = if uninstall_failed uerr
        then (uerr, {| obj := o2; trace := tr ++ acts |})
        else (None,
              {| obj := upd_Status (set_StorageNamespace "")
                          (upd_Status (set_History []) o2);
                 trace := tr ++ acts |}).
Proof.
  intros Hz Hs Hb Hacc.
  to_getter o Hz Hs. rewrite Hb. cbn [obj trace].
  unfold account_confirmed in Hacc.
  destruct (SpecKubeConfig (Spec o));
    [| destruct Hacc as (rc & Hrc & Hcase); rewrite Hrc; cbn [obj trace];
       destruct Hcase as [Huser | Hfound];
       [ rewrite Huser; cbn [String.eqb negb]
       | unfold impersonated_account in Hfound;
         destruct (negb _); [rewrite Hfound |] ] ].
  all: cbn [obj trace]; unfold reconcileUninstall; unfold_body; cbn [obj trace].
  all: destruct (NewConfigFactory P g (DefaultStorageDriver P)
                   (StorageNamespace (Status o))) as [err | cfg];
    cbn [obj trace];
    [| destruct (Uninstall_Reconcile P cfg o) as [o2 [err |]]; cbn [obj trace]];
    try destruct (errors.Is_ErrNoCurrent err) eqn:Hno; cbn [negb obj trace];
    rewrite <- ?(assoc_L (++)); cbn [app];
    (eexists _, _, _; split; [by repeat split |]);
    unfold uninstall_failed; rewrite ?Hno; cbn [negb];
    by rewrite ?app_nil_r.
Qed.

End Deletion.

(** * Every path of Reconcile *)

Section EntryShape.

Variable P : Packages.
Variable r : HelmReleaseReconciler.

(** X17: the deferred function of [Reconcile] always passes the field owner
    and the owned conditions to the patch, in this order, followed by at
    most the option that records the observed generation.  That option is
    passed exactly when the error is terminal or, with a nil error, when no
    immediate requeue is asked for: the test [result.IsZero()] of the
    source adds nothing to [!result.Requeue], and a result that only sets
    RequeueAfter records the generation. *)
Theorem observed_generation_recorded (result : Result) (retErr : option Error) :
  (WithStatusObservedGeneration ∈ patchOpts r result retErr
   ↔ match retErr with
     | Some e => errors.Is_TerminalError e = true
     | None => Requeue result = false
     end)
  ∧ ∃ rest, patchOpts r result retErr
            = WithFieldOwner (FieldManager r) :: WithOwnedConditions :: rest
            ∧ (rest = [] ∨ rest = [WithStatusObservedGeneration]).
Proof.
  unfold patchOpts, Result_IsZero.
  split.
  - destruct retErr as [e |].
    + destruct (errors.Is_TerminalError e); cbn [app];
        rewrite !elem_of_cons, elem_of_nil; split; try done; auto.
      by intros [|[|]].
    + destruct (Requeue result); cbn [negb andb orb app];
        rewrite ?orb_true_r; cbn [app];
        rewrite !elem_of_cons, elem_of_nil; split; try done; auto.
      by intros [|[|]].
  - destruct (match retErr with Some e => _ | None => _ end);
      eexists; (split; [reflexivity |]); auto.
Qed.

(** The calls of the body of [Reconcile], whatever path it takes. *)
Lemma Reconcile_body_calls (st : State) :
  ∃ new, trace (Reconcile_body P r st).2 = trace st ++ new ∧ body_calls new.
Proof.
  unfold Reconcile_body. unfold_body. cbn [obj trace].
  destruct (negb (DeletionTimestamp_IsZero (obj st))).
  - destruct (reconcileDelete_calls P r st) as (new & Htrace & Hcalls).
    destruct (reconcileDelete P r st) as [out st']. cbn [snd fst] in *.
    exists new. split; [done | by constructor].
  - cbn [obj trace].
    destruct (negb (controllerutil.ContainsFinalizer _ _)); cbn [obj trace].
    { exists []. split; [by rewrite app_nil_r | do 2 constructor]. }
    destruct (Suspend (Spec (obj st))); cbn [obj trace].
    { exists []. split; [by rewrite app_nil_r | do 2 constructor]. }
    unfold reconcileChartTemplate. unfold_body. cbn [obj trace].
    destruct (HelmChartTemplate_Reconcile P (obj st)) as [o1 [e |]];
      cbn [obj trace].
    { eexists. split; [reflexivity |]. apply body_pass. constructor. }
    match goal with
    | |- context [reconcileRelease P r ?s] =>
        destruct (reconcileRelease_calls P r s) as (new & Htrace & Hcalls);
        destruct (reconcileRelease P r s) as [out st']
    end.
    cbn [snd fst obj trace] in *.
    exists (EvChartTemplate (obj st) :: new).
    split; [by rewrite Htrace, <- (assoc_L (++)) | by constructor].
Qed.

(** X18: for every object found, the calls of one [Reconcile] are, in this
    order: the suspend metric, the calls of the body, one patch, the
    readiness metric and the duration metric.  The body makes the calls of
    a deletion, or reconciles the chart template and makes the calls of a
    pass, so it never patches or records a metric itself.  The patch is
    issued on the object as the body left it, with the options chosen from
    the result and the error of the body, and both metrics are recorded on
    the object as the patch left it. *)
Theorem reconcile_patches_once (req : NamespacedName) (o : HelmRelease) :
  Get r req = inr o →
  ∃ result retErr st1 st2 mid,
    Reconcile_body P r (entry_state o) = ((result, retErr), st1)
    ∧ (Reconcile P r req).2 = Some st2
    ∧ trace st2
      = EvRecordSuspend (Suspend (Spec o)) :: mid
        ++ [EvPatch (obj st1) (patchOpts r result retErr);
            EvRecordReadiness (obj st2); EvRecordDuration (obj st2)]
    ∧ body_calls mid
    ∧ obj st2 = (Patch P (obj st1) (patchOpts r result retErr)).1.
Proof.
  intros Hget.
  destruct (Reconcile_body_calls (entry_state o)) as (mid & Htrace & Hcalls).
  unfold Reconcile. rewrite Hget. fold (entry_state o).
  destruct (Reconcile_body P r (entry_state o)) as [[result retErr] st1].
  cbn [fst snd] in Htrace.
  unfold Reconcile_deferred. unfold_body. cbn [obj trace].
  destruct (Patch P (obj st1) (patchOpts r result retErr)) as [o2 perr] eqn:Hpatch.
  cbn [obj trace fst snd].
  exists result, retErr, st1. eexists. exists mid.
  split; [done |]. split; [reflexivity |]. cbn [obj trace].
  split; [| by rewrite Hpatch].
  rewrite Htrace. cbn [entry_state trace app].
  by rewrite <- !(assoc_L (++)).
Qed.

(** X19: for a release that carries the finalizer and is neither under
    deletion nor suspended, a failure of the chart template reconciler ends
    the body of [Reconcile] with that error and the zero result: the pass
    of [reconcileRelease] is not started, so the release is not marked
    Reconciling by the controller and no chart is loaded. *)
Theorem chart_template_failure_stops (o o1 : HelmRelease) (e : Error) :
  DeletionTimestamp_IsZero o = true →
  v2c.HelmReleaseFinalizer ∈ Finalizers o →
  Suspend (Spec o) = false →
  HelmChartTemplate_Reconcile P o = (o1, Some e) →
  Reconcile_body P r (entry_state o)
  = ((Result_zero, Some e),
     {| obj := o1; trace := [EvRecordSuspend false; EvChartTemplate o] |}).
Proof.
  intros Hz Hfin Hs Ht.
  unfold Reconcile_body, reconcileChartTemplate, entry_state.
  unfold_body. cbn [obj trace].
  rewrite Hz. cbn [negb obj trace].
  unfold controllerutil.ContainsFinalizer. rewrite (bool_decide_eq_true_2 _ Hfin).
  cbn [negb obj trace]. rewrite Hs. cbn [obj trace]. by rewrite Ht.
Qed.

(** X20: when the body of [Reconcile] returns a terminal error, the
    deferred patch is issued with the option that records the observed
    generation, and the error [Reconcile] returns is terminal whether the
    patch succeeds or fails: the aggregate of the terminal error and the
    patch error still matches [reconcile.TerminalError]. *)
Theorem terminal_error_survives_patch (req : NamespacedName) (o : HelmRelease)
  (result : Result) (e : Error) (st1 : State) :
  Get r req = inr o →
  Reconcile_body P r (entry_state o) = ((result, Some e), st1) →
  errors.Is_TerminalError e = true →
  ∃ e' st2,
    Reconcile P r req = ((result, Some e'), Some st2)
    ∧ errors.Is_TerminalError e' = true
    ∧ EvPatch (obj st1) [WithFieldOwner (FieldManager r); WithOwnedConditions;
                         WithStatusObservedGeneration] ∈ trace st2.
Proof.
  intros Hget Hbody Hterm.
  unfold Reconcile. rewrite Hget. fold (entry_state o). rewrite Hbody.
  unfold Reconcile_deferred. unfold_body. cbn [obj trace].
  assert (Hopts : patchOpts r result (Some e)
                  = [WithFieldOwner (FieldManager r); WithOwnedConditions;
                     WithStatusObservedGeneration]).
  { unfold patchOpts. by rewrite Hterm. }
  rewrite Hopts.
  destruct (Patch P (obj st1) _) as [o2 [pe |]]; cbn [obj trace fst snd].
  - eexists _, _. split; [reflexivity |]. split.
    + cbn. by rewrite Hterm.
    + cbn [trace]. rewrite !elem_of_app, !elem_of_cons. auto.
  - eexists _, _. split; [reflexivity |]. split; [done |].
    cbn [trace]. rewrite !elem_of_app, !elem_of_cons. auto.
Qed.

End EntryShape.

(** * Chart loading and deletion in the earlier revision *)

Section LegacyPaths.

Variable P : Packages.
Variable r : HelmReleaseReconciler.
Variable NoCrossNamespaceRef : bool.
Variable Current : HelmReleaseStatus → option Snapshot.
Variable clear_Current : HelmReleaseStatus → HelmReleaseStatus.
Variable NewInClusterMemoryRESTClientGetter : HelmRelease → Error + Getter.

(** X21: the earlier revision of [reconcileRelease] does not test that the
    chart object has an artifact.  With a chart that is observed at its
    generation and Ready but has no artifact, and values that compose, it
    reads [hc.GetArtifact().URL] through the nil pointer and panics, the
    release left marked Reconciling and no call made; the current revision
    requeues in this case. *)
Theorem legacy_missing_artifact_panics (o : HelmRelease) (tr : list Event)
  (hc : HelmChartObj) (values : Values) :
  checkDependencies r o = None →
  Legacy.getHelmChart P r NoCrossNamespaceRef (reconciling o) = inr hc →
  hcGeneration hc = hcObservedGeneration hc →
  conditions.IsReady hc = true →
  hcArtifact hc = None →
  ChartValuesFromReferences P (Namespace o) (GetValues P (reconciling o))
    (ValuesFrom (Spec o)) = inr values →
  Legacy.reconcileRelease P r NoCrossNamespaceRef Current clear_Current
    NewInClusterMemoryRESTClientGetter {| obj := o; trace := tr |}
  = (Legacy.Panics, {| obj := reconciling o; trace := tr |}).
Proof.
  intros Hdeps Hchart Hgen Hready Hart Hvalues.
  unfold Legacy.reconcileRelease. unfold_body. cbn [obj trace].
  fold (reconciling o).
  unfold Legacy.checkDependencies.
  rewrite legacy_checkDependencies_from.
  fold (checkDependencies r (reconciling o)).
  rewrite checkDependencies_reconciling, Hdeps, if_same. cbn [obj trace].
  rewrite Hchart. cbn [obj trace].
  rewrite Hgen, Z.eqb_refl, Hready. cbn [negb orb obj trace].
  change (Namespace (reconciling o)) with (Namespace o).
  change (ValuesFrom (Spec (reconciling o))) with (ValuesFrom (Spec o)).
  rewrite Hvalues. cbn [obj trace]. by rewrite Hart.
Qed.

(** X22: on every path, the earlier revision of [reconcileDelete] makes at
    most one call, the uninstall on the object as received, and returns the
    zero result; a nil error comes with the finalizer removed.  A suspended
    release is let go without a call.  For a release that is not suspended,
    any failure to build the client getter, a missing kubeconfig secret
    included, is returned as the error with no call made and the
    finalizers kept, whether or not the release was ever installed: the
    deletion is blocked where the current revision skips the uninstall. *)
Theorem legacy_deletion (st : State) :
  let run := Legacy.reconcileDelete P r NewInClusterMemoryRESTClientGetter st in
  ∃ new,
    trace run.2 = trace st ++ new
    ∧ (new = [] ∨ ∃ cfg, new = [EvUninstall cfg (obj st)])
    ∧ run.1.1 = Result_zero
    ∧ (run.1.2 = None → v2c.HelmReleaseFinalizer ∉ Finalizers (obj run.2))
    ∧ (Suspend (Spec (obj st)) = true → new = [] ∧ run.1.2 = None)
    ∧ (∀ err,
         Suspend (Spec (obj st)) = false →
         Legacy.buildRESTClientGetter P r NewInClusterMemoryRESTClientGetter (obj st)
         = inl err →
         new = [] ∧ run.1.2 = Some err
         ∧ Finalizers (obj run.2) = Finalizers (obj st)).
Proof.
  unfold Legacy.reconcileDelete, Legacy.uninstall, reconcileUninstall.
  unfold_body. cbn [obj trace]. split_body.
  all: rewrite <- ?(assoc_L (++)); cbn [app].
  all: try (eexists; split; [reflexivity |]; split; [by eauto |];
            repeat split; intros;
            try apply RemoveFinalizer_absent;
            rewrite ?negb_true_iff, ?negb_false_iff in *; congruence).
  all: exists []; split; [by rewrite app_nil_r |]; split; [by left |];
    repeat split; intros;
    try apply RemoveFinalizer_absent;
    rewrite ?negb_true_iff, ?negb_false_iff in *; congruence.
Qed.

End LegacyPaths.

(** * The conditions a pass leaves *)

Section PassMarks.

Variable P : Packages.
Variable r : HelmReleaseReconciler.

Ltac ready_lookup :=
  unfold meta.StalledCondition, meta.ReadyCondition, meta.ReconcilingCondition;
  by simplify_map_eq.

(** X23: a pass of [reconcileRelease] never ends silently.  On every path
    that neither ran a Helm action nor asks for an immediate requeue, the
    release is left with Ready=False, under one of the eight reasons the
    controller gives itself. *)
Theorem pass_never_ends_silently (st : State) :
  let run := reconcileRelease P r st in
  ∃ new,
    trace run.2 = trace st ++ new
    ∧ (List.filter is_action new = [] →
       Requeue run.1.1 = false →
       ∃ reason msg,
         Conditions (Status (obj run.2)) !! meta.ReadyCondition
         = Some (conditions.FalseCondition reason msg)
         ∧ reason ∈ pass_failure_reasons).
Proof.
  unfold reconcileRelease, reconcileUninstall. unfold_body. cbn [obj trace].
  split_body.
  all: rewrite <- ?(assoc_L (++)); cbn [app].
  all: first [ eexists; split; [reflexivity |]
             | exists []; split; [by rewrite app_nil_r |] ].
  all: try (cbn; done).
  all: intros _ _; eexists _, _; (split; [cbn; ready_lookup |]);
    unfold pass_failure_reasons; rewrite !elem_of_cons; tauto.
Qed.

(** X24: on every path of [reconcileRelease] that ran no Helm action, the
    release is left either Reconciling and not Stalled, or, only when the
    access to the chart was denied and the terminal error is returned,
    Stalled with the reason AccessDenied and not Reconciling: a Stalled
    condition the object came with is always removed, and the two
    conditions never stand together. *)
Theorem pass_reconciling_or_stalled (st : State) :
  let run := reconcileRelease P r st in
  ∃ new,
    trace run.2 = trace st ++ new
    ∧ (List.filter is_action new = [] →
       (Conditions (Status (obj run.2)) !! meta.ReconcilingCondition
        = Some (conditions.TrueCondition meta.ProgressingReason "")
        ∧ Conditions (Status (obj run.2)) !! meta.StalledCondition = None)
       ∨ (Conditions (Status (obj run.2)) !! meta.ReconcilingCondition = None
          ∧ ∃ e,
              run.1 = (Result_zero, Some (Terminal e))
              ∧ acl.IsAccessDenied e = true
              ∧ Conditions (Status (obj run.2)) !! meta.StalledCondition
                = Some (conditions.TrueCondition aclv1.AccessDeniedReason
                          (Sprintf0 P (errors.ErrorString e))))).
Proof.
  unfold reconcileRelease, reconcileUninstall. unfold_body. cbn [obj trace].
  split_body.
  all: rewrite <- ?(assoc_L (++)); cbn [app].
  all: first [ eexists; split; [reflexivity |]
             | exists []; split; [by rewrite app_nil_r |] ].
  all: try (cbn; done).
  all: intros _.
  all: try (left; split; cbn; ready_lookup).
  all: right; split; [cbn; ready_lookup |]; eexists; split; [reflexivity |];
    split; [done |]; cbn; ready_lookup.
Qed.

End PassMarks.

(** * Where the earlier revision panics *)

Section LegacyPanics.

Variable P : Packages.
Variable r : HelmReleaseReconciler.
Variable NoCrossNamespaceRef : bool.
Variable Current : HelmReleaseStatus → option Snapshot.
Variable clear_Current : HelmReleaseStatus → HelmReleaseStatus.
Variable NewInClusterMemoryRESTClientGetter : HelmRelease → Error + Getter.

(** X25: the earlier revision of [reconcileRelease] panics at its two reads
    through a nil pointer and nowhere else.  A pass that panics has made no
    call and has only marked the release Reconciling; and either a
    dependency is not ready while the status has no current release, or
    the dependencies are ready and the chart object, observed at its
    generation and Ready, has no artifact. *)
Theorem legacy_panics_only_at_dereference (st : State) :
  let run := Legacy.reconcileRelease P r NoCrossNamespaceRef Current clear_Current
               NewInClusterMemoryRESTClientGetter st in
  run.1 = Legacy.Panics →
  run.2 = {| obj := reconciling (obj st); trace := trace st |}
  ∧ ((checkDependencies r (obj st) ≠ None
      ∧ Current (Status (reconciling (obj st))) = None)
     ∨ (checkDependencies r (obj st) = None
        ∧ ∃ hc, Legacy.getHelmChart P r NoCrossNamespaceRef (reconciling (obj st))
                = inr hc
                ∧ hcGeneration hc = hcObservedGeneration hc
                ∧ conditions.IsReady hc = true
                ∧ hcArtifact hc = None)).
Proof.
  unfold Legacy.reconcileRelease, Legacy.uninstall, reconcileUninstall.
  unfold_body. cbn [obj trace].
  fold (reconciling (obj st)).
  unfold Legacy.checkDependencies.
  rewrite legacy_checkDependencies_from.
  fold (checkDependencies r (reconciling (obj st))).
  rewrite checkDependencies_reconciling.
  destruct (checkDependencies r (obj st)) as [err |] eqn:Hdeps.
  - destruct (DependsOn (Spec (obj st))) eqn:Hd;
      [by unfold checkDependencies in Hdeps; rewrite Hd in Hdeps |].
    change (DependsOn (Spec (reconciling (obj st))))
      with (DependsOn (Spec (obj st))).
    rewrite Hd. cbn [length Z.of_nat]. cbn [Z.ltb Z.compare].
    split_body; try done.
    intros _. split; [done |]. left. by split.
  - rewrite if_same. split_body; try done.
    intros _. split; [done |]. right. split; [done |].
    match goal with
    | H : negb (hcGeneration ?h =? _) || _ = false |- _ =>
        exists h; apply orb_false_elim in H as [Hg Hr];
        apply negb_false_iff in Hg, Hr; apply Z.eqb_eq in Hg
    end.
    by repeat split.
Qed.

End LegacyPanics.

(** * The further theorems on the sample cluster *)

(** Witness of X9: the chart object of apps/web is gone. *)
Lemma chart_fetch_error_retried_witness :
  let P := Sample.packages None None None in
  let r := Sample.reconciler_of (inl Sample.chartMissing) None Sample.clusterConfig in
  checkDependencies r Sample.web = None
  ∧ getHelmChart P r (reconciling Sample.web) = inl Sample.chartMissing
  ∧ acl.IsAccessDenied Sample.chartMissing = false
  ∧ (reconcileRelease P r {| obj := Sample.web; trace := [] |}).1
    = (Result_zero, Some Sample.chartMissing).
Proof.
  intros P r.
  split; [reflexivity |]. split; [reflexivity |]. split; [reflexivity |].
  destruct (chart_fetch_error_retried P r Sample.web [] Sample.chartMissing
              eq_refl eq_refl eq_refl)
    as (o' & msg & -> & _).
  reflexivity.
Defined.

(** Witness of X10: the chart object of apps/web is Ready at its
    generation and has no artifact. *)
Lemma chart_not_ready_waits_witness :
  let P := Sample.packages None None None in
  let r := Sample.reconciler_of (inr Sample.chartPending) None Sample.clusterConfig in
  checkDependencies r Sample.web = None
  ∧ getHelmChart P r (reconciling Sample.web) = inr Sample.chartPending
  ∧ hcArtifact Sample.chartPending = None
  ∧ (reconcileRelease P r {| obj := Sample.web; trace := [] |}).1
    = ({| Requeue := false; RequeueAfter := 300 |}, None).
Proof.
  intros P r.
  split; [reflexivity |]. split; [reflexivity |]. split; [reflexivity |].
  rewrite (chart_not_ready_waits P r Sample.web [] Sample.chartPending
             eq_refl eq_refl (or_intror (or_intror eq_refl))).
  reflexivity.
Defined.

(** The collaborators of the sample packages return the object they
    receive. *)
Lemma sample_keeps_metadata (access uninstall patch : option Error) :
  (∀ cfg, keeps_metadata
            (Uninstall_Reconcile (Sample.packages access uninstall patch) cfg))
  ∧ keeps_metadata
      (HelmChartTemplate_Reconcile (Sample.packages access uninstall patch)).
Proof. by split. Defined.

(** Witness of X13: apps/web under deletion, the uninstall succeeding. *)
Lemma deletion_finalizer_witness :
  let P := Sample.packages None None None in
  let st := {| obj := web_deleted; trace := [] |} in
  (∀ cfg, keeps_metadata (Uninstall_Reconcile P cfg))
  ∧ keeps_metadata (HelmChartTemplate_Reconcile P)
  ∧ DeletionTimestamp_IsZero web_deleted = false
  ∧ (reconcileDelete P Sample.reconciler st).1 = (Result_zero, None)
  ∧ v2c.HelmReleaseFinalizer ∉ Finalizers (obj (reconcileDelete P Sample.reconciler st).2).
Proof.
  intros P st.
  destruct (sample_keeps_metadata None None None) as [Hu Ht].
  split; [exact Hu |]. split; [exact Ht |]. split; [reflexivity |].
  split; [reflexivity |].
  destruct (deletion_finalizer P Sample.reconciler st Hu Ht eq_refl)
    as (_ & Hgone & _).
  by apply Hgone.
Defined.

(** Witness of X14: apps/web under deletion, the secret with its kubeconfig
    gone. *)
Lemma deletion_without_kubeconfig_secret_witness :
  let P := Sample.packages None None None in
  let st := {| obj := web_remote_deleted; trace := [] |} in
  DeletionTimestamp_IsZero web_remote_deleted = false
  ∧ StorageNamespace (Status web_remote_deleted) ≠ ""
  ∧ GetSecret Sample.reconciler {| nnNamespace := "apps"; nnName := "prod-kubeconfig" |}
    = inl (Err KNotFound "secrets not found")
  ∧ reconcileReleaseDeletion P Sample.reconciler st = (None, st).
Proof.
  intros P st.
  assert (StorageNamespace (Status web_remote_deleted) ≠ "") as Hs by done.
  split; [reflexivity |]. split; [exact Hs |]. split; [reflexivity |].
  destruct (deletion_without_kubeconfig_secret P Sample.reconciler
              web_remote_deleted []
              {| SecretRefName := "prod-kubeconfig"; SecretRefKey := "value" |}
              (Err KNotFound "secrets not found") eq_refl Hs eq_refl eq_refl)
    as (werr & _ & _ & Hrun).
  exact Hrun.
Defined.

(** Witness of X15: apps/web under deletion, deployed as the service account
    apps/deployer, which is gone. *)
Lemma deletion_without_service_account_witness :
  let P := Sample.packages None None None in
  let r := Sample.reconciler_of (inr Sample.chartObject)
             (Some Sample.accountMissing) Sample.impersonating in
  let st := {| obj := web_deleted; trace := [] |} in
  DeletionTimestamp_IsZero web_deleted = false
  ∧ StorageNamespace (Status web_deleted) ≠ ""
  ∧ ToRESTConfig P (NewMemoryRESTClientGetter P Sample.impersonating web_deleted)
    = inr Sample.impersonating
  ∧ GetServiceAccount r {| nnNamespace := "apps"; nnName := "deployer" |}
    = Some Sample.accountMissing
  ∧ reconcileReleaseDeletion P r st = (None, st).
Proof.
  intros P r st.
  assert (StorageNamespace (Status web_deleted) ≠ "") as Hs by done.
  split; [reflexivity |]. split; [exact Hs |]. split; [reflexivity |].
  split; [reflexivity |].
  exact (deletion_without_service_account P r web_deleted []
           (NewMemoryRESTClientGetter P Sample.impersonating web_deleted)
           Sample.impersonating "system:serviceaccount:apps" "deployer"
           Sample.accountMissing
           eq_refl Hs eq_refl eq_refl eq_refl eq_refl eq_refl eq_refl).
Defined.

(** Witness of X16: apps/web under deletion, the uninstall succeeding. *)
Lemma deletion_uninstalls_then_truncates_witness :
  let P := Sample.packages None None None in
  let g := NewMemoryRESTClientGetter P Sample.clusterConfig web_deleted in
  let run := reconcileReleaseDeletion P Sample.reconciler
               {| obj := web_deleted; trace := [] |} in
  DeletionTimestamp_IsZero web_deleted = false
  ∧ StorageNamespace (Status web_deleted) ≠ ""
  ∧ buildRESTClientGetter P Sample.reconciler web_deleted = inr g
  ∧ account_confirmed P Sample.reconciler web_deleted g
  ∧ run.1 = None
  ∧ History (Status (obj run.2)) = []
  ∧ StorageNamespace (Status (obj run.2)) = ""
  ∧ List.filter is_uninstall (trace run.2) ≠ [].
Proof.
  intros P g run.
  assert (StorageNamespace (Status web_deleted) ≠ "") as Hs by done.
  assert (account_confirmed P Sample.reconciler web_deleted g) as Hacc.
  { exists Sample.clusterConfig. split; [reflexivity | by left]. }
  split; [reflexivity |]. split; [exact Hs |]. split; [reflexivity |].
  split; [exact Hacc |].
  destruct (deletion_uninstalls_then_truncates P Sample.reconciler web_deleted []
              g eq_refl Hs eq_refl Hacc)
    as (o2 & uerr & acts & Hcfg & Hrun).
  cbn in Hcfg. destruct Hcfg as [-> [= -> ->]].
  subst run. rewrite Hrun. by repeat split.
Defined.

(** Witness of X18: one reconciliation of apps/web. *)
Lemma reconcile_patches_once_witness :
  let P := Sample.packages None None None in
  Get Sample.reconciler web_key = inr Sample.web
  ∧ ∃ st2 mid o1 opts,
      (Reconcile P Sample.reconciler web_key).2 = Some st2
      ∧ trace st2
        = EvRecordSuspend false :: mid
          ++ [EvPatch o1 opts; EvRecordReadiness (obj st2);
              EvRecordDuration (obj st2)]
      ∧ body_calls mid.
Proof.
  intros P. split; [reflexivity |].
  destruct (reconcile_patches_once P Sample.reconciler web_key Sample.web eq_refl)
    as (result & retErr & st1 & st2 & mid & _ & Hrun & Htrace & Hcalls & _).
  by exists st2, mid, (obj st1), (patchOpts Sample.reconciler result retErr).
Defined.

(** Witness of X19: the chart template of apps/web is refused by the
    cluster. *)
Lemma chart_template_failure_stops_witness :
  let P := Sample.packages_template (Some Sample.templateFailure) None in
  DeletionTimestamp_IsZero Sample.web = true
  ∧ v2c.HelmReleaseFinalizer ∈ Finalizers Sample.web
  ∧ Suspend (Spec Sample.web) = false
  ∧ (Reconcile_body P Sample.reconciler (entry_state Sample.web)).1
    = (Result_zero, Some Sample.templateFailure).
Proof.
  intros P.
  assert (v2c.HelmReleaseFinalizer ∈ Finalizers Sample.web) as Hfin
    by (apply elem_of_cons; by left).
  split; [reflexivity |]. split; [exact Hfin |]. split; [reflexivity |].
  by rewrite (chart_template_failure_stops P Sample.reconciler Sample.web
                Sample.web Sample.templateFailure eq_refl Hfin eq_refl eq_refl).
Defined.

(** Witness of X20: the access to the chart of apps/web is denied and the
    deferred patch fails as well. *)
Lemma terminal_error_survives_patch_witness :
  let P := Sample.packages (Some Sample.denied) None (Some Sample.unavailable) in
  let body := Reconcile_body P Sample.reconciler (entry_state Sample.web) in
  Get Sample.reconciler web_key = inr Sample.web
  ∧ body.1 = (Result_zero, Some (Terminal Sample.denied))
  ∧ (Reconcile P Sample.reconciler web_key).1
    = (Result_zero, Some (Aggregate [Terminal Sample.denied; Sample.unavailable]))
  ∧ errors.Is_TerminalError (Aggregate [Terminal Sample.denied; Sample.unavailable])
    = true.
Proof.
  intros P body. split; [reflexivity |]. split; [reflexivity |].
  destruct (terminal_error_survives_patch P Sample.reconciler web_key Sample.web
              Result_zero (Terminal Sample.denied) body.2
              eq_refl eq_refl eq_refl)
    as (e' & st2 & Hrun & Hterm & _).
  vm_compute in Hrun. injection Hrun as <- <-.
  by split.
Defined.

(** Witness of X21: the chart object of apps/web is Ready at its generation
    and has no artifact. *)
Lemma legacy_missing_artifact_panics_witness :
  let P := Sample.packages None None None in
  let r := Sample.reconciler_of (inr Sample.chartPending) None Sample.clusterConfig in
  Legacy.getHelmChart P r true (reconciling Sample.web) = inr Sample.chartPending
  ∧ conditions.IsReady Sample.chartPending = true
  ∧ hcArtifact Sample.chartPending = None
  ∧ (Legacy.reconcileRelease P r true (λ _, None) (λ st, st)
       (λ o, inr (Sample.getter o)) {| obj := Sample.web; trace := [] |}).1
    = Legacy.Panics.
Proof.
  intros P r.
  split; [reflexivity |]. split; [reflexivity |]. split; [reflexivity |].
  by rewrite (legacy_missing_artifact_panics P r true (λ _, None) (λ st, st)
                (λ o, inr (Sample.getter o)) Sample.web [] Sample.chartPending
                (SpecValues (Spec Sample.web))
                eq_refl eq_refl eq_refl eq_refl eq_refl eq_refl).
Defined.

(** Witness of X25: apps/web waits for apps/db and has no current
    release. *)
Lemma legacy_panics_only_at_dereference_witness :
  let P := Sample.packages None None None in
  let st := {| obj := web_after_db; trace := [] |} in
  let run := Legacy.reconcileRelease P Sample.reconciler true (λ _, None) (λ st, st)
               (λ o, inr (Sample.getter o)) st in
  run.1 = Legacy.Panics
  ∧ run.2 = {| obj := reconciling web_after_db; trace := [] |}
  ∧ checkDependencies Sample.reconciler web_after_db ≠ None.
Proof.
  intros P st run.
  assert (run.1 = Legacy.Panics) as Hpanics by reflexivity.
  split; [exact Hpanics |].
  destruct (legacy_panics_only_at_dereference P Sample.reconciler true (λ _, None)
              (λ st, st) (λ o, inr (Sample.getter o)) st Hpanics)
    as [Hstate [[Hdeps _] | [Hdeps _]]].
  - by split.
  - by vm_compute in Hdeps.
Defined.
